(** * mender-shell: configuration loading and validation

    A shallow embedding of [config/config.go] (package [config]):
    [LoadConfig], [loadConfigFile], [readConfigFile], [Validate],
    [maybeHTTPSClient] and [GetHTTPConfig], with the properties of the
    configuration pipeline proved about them.

    Go values are modelled as follows.
    - [string] is Rocq's [string] (a sequence of bytes, as in Go).
    - A slice [[]T] is [option (list T)]: [None] is the nil slice, [Some l]
      a non-nil slice with elements [l] ([Some []] is the empty, non-nil
      slice that [json.Unmarshal] makes of the JSON text [[]]).
    - A method with a pointer receiver that mutates the receiver returns the
      new value of the receiver next to its result.
    - Calls to the logger append entries to a log that is threaded through. *)

From stdpp Require Import base option list strings.
From Stdlib Require Import Ascii Lia.

(** ** Package [strings] of the Go library: the two functions used. *)

Module strings.

(** [func HasSuffix(s, suffix string) bool]:
    [len(s) >= len(suffix) && s[len(s)-len(suffix):] == suffix]. *)
Definition HasSuffix (s suffix : string) : bool :=
  (String.length suffix <=? String.length s)%nat
  && String.eqb
       (String.substring (String.length s - String.length suffix)
                  (String.length suffix) s)
       suffix.

(** [func TrimSuffix(s, suffix string) string]: [s] without the suffix when
    it has it, [s] itself otherwise. *)
Definition TrimSuffix (s suffix : string) : string :=
  if HasSuffix s suffix
  then String.substring 0 (String.length s - String.length suffix) s
  else s.

End strings.

(** ** Package [client/https]: the declarations [config.go] relies on. *)

Module https.

(** Modelled from the spec: the type [https.MenderServer] is declared
    outside [config.go]; a server descriptor holds a URL, the one field the
    code reads and writes. *)
Record MenderServer : Type := mkMenderServer { ServerURL : string }.

(** Modelled from the spec: the type [https.Client] is declared outside
    [config.go]; of the HTTPS-client descriptor the code reads the
    certificate path and the key path. *)
Record Client : Type := mkClient { Certificate : string; Key : string }.

(** Modelled from the spec: the type [https.Config] is declared outside
    [config.go]; these are the four fields [GetHTTPConfig] fills in. The
    pointer [*Client] is [None] when nil and otherwise holds the value it
    points to. *)
Record Config : Type := mkConfig {
  ServerCert : string;
  IsHTTPS : bool;
  Client_ptr : option Client;
  NoVerify : bool
}.

(** [make([]https.MenderServer, n)] fills the slice with zero values. *)
Definition zeroMenderServer : MenderServer := {| ServerURL := "" |}.
Definition zeroClient : Client := {| Certificate := ""; Key := "" |}.

End https.

(** ** The configuration structures *)

Definition httpsSchema : string := "https".

Record MenderShellConfigFromFile : Type := mkFromFile {
  ClientProtocol : string;
  HTTPSClient : https.Client;
  SkipVerify : bool;
  ServerCertificate : string;
  ServerURL : string;
  Servers : option (list https.MenderServer);
  ShellCommand : string;
  User : string
}.

(** [MenderShellConfig] embeds [MenderShellConfigFromFile]; the coercion
    stands for Go's promotion of the embedded fields ([c.Servers]). *)
Record MenderShellConfig : Type := mkConfig {
  FromFile :> MenderShellConfigFromFile
}.

Definition NewMenderShellConfig : MenderShellConfig :=
  {| FromFile :=
       {| ClientProtocol := ""; HTTPSClient := https.zeroClient;
          SkipVerify := false; ServerCertificate := ""; ServerURL := "";
          Servers := None; ShellCommand := ""; User := "" |} |}.

(** Assignments to the fields of the embedded structure. *)
Definition with_ClientProtocol (v : string) (r : MenderShellConfigFromFile) :=
  mkFromFile v (HTTPSClient r) (SkipVerify r) (ServerCertificate r)
             (ServerURL r) (Servers r) (ShellCommand r) (User r).
Definition with_HTTPSClient (v : https.Client) (r : MenderShellConfigFromFile) :=
  mkFromFile (ClientProtocol r) v (SkipVerify r) (ServerCertificate r)
             (ServerURL r) (Servers r) (ShellCommand r) (User r).
Definition with_SkipVerify (v : bool) (r : MenderShellConfigFromFile) :=
  mkFromFile (ClientProtocol r) (HTTPSClient r) v (ServerCertificate r)
             (ServerURL r) (Servers r) (ShellCommand r) (User r).
Definition with_ServerCertificate (v : string) (r : MenderShellConfigFromFile) :=
  mkFromFile (ClientProtocol r) (HTTPSClient r) (SkipVerify r) v
             (ServerURL r) (Servers r) (ShellCommand r) (User r).
Definition with_ServerURL (v : string) (r : MenderShellConfigFromFile) :=
  mkFromFile (ClientProtocol r) (HTTPSClient r) (SkipVerify r)
             (ServerCertificate r) v (Servers r) (ShellCommand r) (User r).
Definition with_Servers (v : option (list https.MenderServer))
    (r : MenderShellConfigFromFile) :=
  mkFromFile (ClientProtocol r) (HTTPSClient r) (SkipVerify r)
             (ServerCertificate r) (ServerURL r) v (ShellCommand r) (User r).
Definition with_ShellCommand (v : string) (r : MenderShellConfigFromFile) :=
  mkFromFile (ClientProtocol r) (HTTPSClient r) (SkipVerify r)
             (ServerCertificate r) (ServerURL r) (Servers r) v (User r).
Definition with_User (v : string) (r : MenderShellConfigFromFile) :=
  mkFromFile (ClientProtocol r) (HTTPSClient r) (SkipVerify r)
             (ServerCertificate r) (ServerURL r) (Servers r)
             (ShellCommand r) v.

(** The two assignments [Validate] makes through the receiver. *)
Definition set_Servers (v : option (list https.MenderServer))
    (c : MenderShellConfig) : MenderShellConfig :=
  {| FromFile := with_Servers v c |}.

Definition set_HTTPSClient (v : https.Client)
    (c : MenderShellConfig) : MenderShellConfig :=
  {| FromFile := with_HTTPSClient v c |}.

(** ** Errors and the log *)

(** A Go [error]: one made by [errors.New], or the error of a failed
    [ioutil.ReadFile]; [Error] is its message. *)
Inductive error : Type :=
  | errors_New (msg : string)
  | ReadFileError (msg : string).

Definition Error (e : error) : string :=
  match e with errors_New m => m | ReadFileError m => m end.

Module log.

Inductive Level : Type := DebugLevel | InfoLevel | WarnLevel | ErrorLevel.

(** The operands of a log call that are not string literals. *)
Inductive Arg : Type :=
  | Int (n : nat)
  | Str (s : string)
  | Cfg (c : MenderShellConfig).

(** One call to the logger: its level, the literal text (the format of
    the [...f] functions) and the operands. *)
Record Entry : Type := mkEntry {
  level : Level;
  text : string;
  args : list Arg
}.

Definition Debug (t : string) (a : list Arg) : Entry := mkEntry DebugLevel t a.
Definition Info (t : string) (a : list Arg) : Entry := mkEntry InfoLevel t a.
Definition Warn (t : string) (a : list Arg) : Entry := mkEntry WarnLevel t a.
Definition Error (t : string) (a : list Arg) : Entry := mkEntry ErrorLevel t a.

End log.

(** ** [Validate] *)

(** The state a call leaves behind: the configuration behind the receiver,
    the log lines written, and the returned error ([None] is [nil]). *)
Record Outcome : Type := mkOutcome {
  cfg : MenderShellConfig;
  logged : list log.Entry;
  err : option error
}.

Definition errBothGiven : error :=
  errors_New "Both Servers AND ServerURL given in mender-shell.conf".

Definition msgBothGiven : string :=
  "In mender-shell.conf: don't specify both Servers field " +:+
  "AND the corresponding fields in base structure (i.e. " +:+
  "ServerURL). The first server on the list overwrites" +:+
  "these fields.".

(** [c.Servers[i].ServerURL] and the assignment to it. The loop guard keeps
    [i] below [len(c.Servers)], where Go would panic otherwise. *)
Definition url_at (servers : list https.MenderServer) (i : nat) : string :=
  from_option https.ServerURL "" (servers !! i).

Definition set_url_at (servers : list https.MenderServer) (i : nat)
    (u : string) : list https.MenderServer :=
  <[i := {| https.ServerURL := u |}]> servers.

(** The body of the [for] loop of [Validate] at index [i]. *)
Definition trimServer (i : nat)
    (st : list https.MenderServer * list log.Entry)
    : list https.MenderServer * list log.Entry :=
  let '(servers, lg) := st in
  let servers1 :=
    if strings.HasSuffix (url_at servers i) "/"
    then set_url_at servers i (strings.TrimSuffix (url_at servers i) "/")
    else servers in
  let lg1 :=
    if String.eqb (url_at servers1 i) ""
    then lg ++ [log.Warn "Server entry %d has no associated server URL."
                         [log.Int (i + 1)]]
    else lg in
  (servers1, lg1).

(** [for i := 0; i < len(c.Servers); i++ { ... }], started at [i]; [fuel]
    bounds the number of iterations. *)
Fixpoint trimLoop (fuel i : nat)
    (st : list https.MenderServer * list log.Entry)
    : list https.MenderServer * list log.Entry :=
  match fuel with
  | O => st
  | S fuel' =>
      if (i <? length (fst st))%nat
      then trimLoop fuel' (S i) (trimServer i st)
      else st
  end.

Section Validation.

(** [func (h *Client) Validate()] of package [client/https] is not part of
    [config.go]: it is a parameter, the new value of the receiver together
    with what it logs. *)
Variable Client_Validate : https.Client -> https.Client * list log.Entry.

(** The second half of [Validate], from the [for] loop on. *)
Definition normalize (c : MenderShellConfig) (lg : list log.Entry)
    : Outcome :=
  let elems := default [] (Servers c) in
  let '(elems', lg1) := trimLoop (length elems) 0 (elems, lg) in
  let c1 := set_Servers ((fun _ => elems') <$> Servers c) c in
  let '(client, lg2) := Client_Validate (HTTPSClient c1) in
  let c2 := set_HTTPSClient client c1 in
  {| cfg := c2;
     logged := lg1 ++ lg2
               ++ [log.Debug "Verified configuration = %#v" [log.Cfg c2]];
     err := None |}.

Definition Validate (c : MenderShellConfig) : Outcome :=
  match Servers c with
  | None =>
      let lg :=
        if String.eqb (ServerURL c) ""
        then [log.Warn "No server URL(s) specified in mender configuration."
                       []]
        else [] in
      let made := replicate 1 https.zeroMenderServer in
      normalize (set_Servers (Some (set_url_at made 0 (ServerURL c))) c) lg
  | Some _ =>
      if negb (String.eqb (ServerURL c) "")
      then {| cfg := c;
              logged := [log.Error msgBothGiven []];
              err := Some errBothGiven |}
      else normalize c []
  end.

(** [maybeHTTPSClient] returns the address of [c.HTTPSClient] or nil; the
    call to [Validate] on it goes through the pointer [c], so the
    configuration is returned as well. *)
Definition maybeHTTPSClient (c : MenderShellConfig)
    : option https.Client * MenderShellConfig * list log.Entry :=
  let '(client, lg) := Client_Validate (HTTPSClient c) in
  let c1 := set_HTTPSClient client c in
  if negb (String.eqb (https.Certificate (HTTPSClient c1)) "")
     && negb (String.eqb (https.Key (HTTPSClient c1)) "")
  then (Some (HTTPSClient c1), c1, lg)
  else (None, c1, lg).

Definition GetHTTPConfig (c : MenderShellConfig)
    : https.Config * MenderShellConfig * list log.Entry :=
  let serverCert := ServerCertificate c in
  let isHTTPS := String.eqb (ClientProtocol c) httpsSchema in
  let '(client, c1, lg) := maybeHTTPSClient c in
  ({| https.ServerCert := serverCert;
      https.IsHTTPS := isHTTPS;
      https.Client_ptr := client;
      https.NoVerify := SkipVerify c1 |}, c1, lg).

End Validation.

(** ** Package [encoding/json] of the Go library, as far as
       [json.Unmarshal] into a [MenderShellConfigFromFile] goes. *)

Module json.

(** A JSON text that the scanner accepts, as the value it denotes. Object
    members keep their order and their duplicates; strings and member
    names are already unquoted. *)
#[warnings="-register-all"]
Inductive Value : Type :=
  | Null
  | Bool (b : bool)
  | Number (literal : string)
  | String (s : string)
  | Array (elems : list Value)
  | Object (members : list (string * Value)).

(** The bytes of a file as [json.Unmarshal] sees them: the scanner either
    rejects them with a [*json.SyntaxError] or accepts them as a value. *)
Inductive Text : Type :=
  | Malformed (msg : string)
  | Wellformed (v : Value).

(** The errors of [json.Unmarshal]: a [*json.SyntaxError], or another
    decode error, given by its message (an [*json.UnmarshalTypeError] or
    the error of a type's own decoder). *)
Inductive Err : Type :=
  | SyntaxError (msg : string)
  | DecodeError (msg : string).

Definition Error (e : Err) : string :=
  match e with SyntaxError m => m | DecodeError m => m end.

(** The [Value] field of an [UnmarshalTypeError]. *)
Definition kind (v : Value) : string :=
  match v with
  | Null => "null"
  | Bool _ => "bool"
  | Number _ => "number"
  | String _ => "string"
  | Array _ => "array"
  | Object _ => "object"
  end.

(** The message of an [UnmarshalTypeError] for a value that does not fit the Go
    type [ty]; [field] is the struct field it was meant for, empty at the
    top level. *)
Definition UnmarshalTypeError (v : Value) (ty field : string) : Err :=
  DecodeError
    (if String.eqb field ""
     then "json: cannot unmarshal " +:+ kind v +:+
          " into Go value of type " +:+ ty
     else "json: cannot unmarshal " +:+ kind v +:+
          " into Go struct field " +:+ field +:+ " of type " +:+ ty).

(** Member names are matched with a field's name exactly or else after
    case folding: ASCII letters to upper case, and the two runes outside
    ASCII that fold to an ASCII letter, U+017F (bytes 197 191) to [S] and
    U+212A (bytes 226 132 170) to [K]. Other bytes stay as they are, as
    no rune they encode folds to a letter of a field name. *)
Definition upper (c : ascii) : ascii :=
  let n := nat_of_ascii c in
  if (97 <=? n)%nat && (n <=? 122)%nat then ascii_of_nat (n - 32) else c.

Fixpoint foldName (s : string) : string :=
  match s with
  | EmptyString => EmptyString
  | String.String "197"%char (String.String "191"%char r) =>
      String.String "S"%char (foldName r)
  | String.String "226"%char (String.String "132"%char (String.String "170"%char r)) =>
      String.String "K"%char (foldName r)
  | String.String c r => String.String (upper c) (foldName r)
  end.

End json.

(** The fields of [MenderShellConfigFromFile] in declaration order, under
    the names [encoding/json] knows them by (the field name, or the name in
    the [json] tag). *)
Inductive Field : Type :=
  | FClientProtocol | FHTTPSClient | FSkipVerify | FServerCertificate
  | FServerURL | FServers | FShellCommand | FUser.

#[global] Instance Field_eq_dec : EqDecision Field.
Proof. solve_decision. Defined.

Definition jsonName (f : Field) : string :=
  match f with
  | FClientProtocol => "ClientProtocol"
  | FHTTPSClient => "HttpsClient"
  | FSkipVerify => "SkipVerify"
  | FServerCertificate => "ServerCertificate"
  | FServerURL => "ServerURL"
  | FServers => "Servers"
  | FShellCommand => "ShellCommand"
  | FUser => "User"
  end.

Definition fields : list Field :=
  [FClientProtocol; FHTTPSClient; FSkipVerify; FServerCertificate;
   FServerURL; FServers; FShellCommand; FUser].

(** The field a member name selects: the one with exactly that name, or
    else the first one whose folded name is the folded member name; a name
    that selects no field is ignored by the decoder. *)
Definition lookupField (key : string) : option Field :=
  match List.find (fun f => String.eqb (jsonName f) key) fields with
  | Some f => Some f
  | None =>
      List.find
        (fun f => String.eqb (json.foldName (jsonName f)) (json.foldName key))
        fields
  end.

Definition structField (f : Field) : string :=
  "MenderShellConfigFromFile." +:+ jsonName f.

(** A JSON value stored into a field of type [string] or [bool]: a value of
    the right kind is assigned, [null] leaves the field as it is, and
    anything else is a type error that leaves it as it is too. *)
Definition storeString (f : Field)
    (set : string -> MenderShellConfigFromFile -> MenderShellConfigFromFile)
    (v : json.Value) (r : MenderShellConfigFromFile)
    : MenderShellConfigFromFile * option json.Err :=
  match v with
  | json.String s => (set s r, None)
  | json.Null => (r, None)
  | _ => (r, Some (json.UnmarshalTypeError v "string" (structField f)))
  end.

Definition storeBool (f : Field)
    (set : bool -> MenderShellConfigFromFile -> MenderShellConfigFromFile)
    (v : json.Value) (r : MenderShellConfigFromFile)
    : MenderShellConfigFromFile * option json.Err :=
  match v with
  | json.Bool b => (set b r, None)
  | json.Null => (r, None)
  | _ => (r, Some (json.UnmarshalTypeError v "bool" (structField f)))
  end.

(** ** The file system *)

Module os.

(** What a path leads to: nothing ([os.Stat] fails and [os.IsNotExist]
    holds of its error), a file that [ioutil.ReadFile] fails on with the
    given message, or a file with contents. *)
Inductive File : Type :=
  | NotExist
  | Unreadable (msg : string)
  | Content (t : json.Text).

Definition FileSystem : Type := string -> File.

(** [_, err := os.Stat(name); os.IsNotExist(err)] *)
Definition StatIsNotExist (fs : FileSystem) (name : string) : bool :=
  match fs name with NotExist => true | _ => false end.

End os.

Module ioutil.

Definition ReadFile (fs : os.FileSystem) (name : string)
    : json.Text + error :=
  match fs name with
  | os.Content t => inl t
  | os.Unreadable msg => inr (ReadFileError msg)
  | os.NotExist =>
      inr (ReadFileError
             ("open " +:+ name +:+ ": no such file or directory"))
  end.

End ioutil.

(** ** [LoadConfig] *)

(** What [LoadConfig] returns, and what it logs. *)
Record Loaded : Type := mkLoaded {
  config : option MenderShellConfig;
  loadErr : option error;
  loadLog : list log.Entry
}.

Section Loading.

(** Decoding a JSON object into the field of type [https.Client] and a
    JSON array into the field of type [[]https.MenderServer] is the work
    of [encoding/json] on types declared outside [config.go]: both are
    parameters. They get the members or elements and the present value of
    the field, and give its new value and the error they save, if any. *)
Variable decodeClient :
  list (string * json.Value) -> https.Client ->
  https.Client * option json.Err.
Variable decodeServers :
  list json.Value -> option (list https.MenderServer) ->
  option (list https.MenderServer) * option json.Err.

Variable fs : os.FileSystem.

Definition storeClient (v : json.Value) (r : MenderShellConfigFromFile)
    : MenderShellConfigFromFile * option json.Err :=
  match v with
  | json.Object ms =>
      let '(cl, e) := decodeClient ms (HTTPSClient r) in
      (with_HTTPSClient cl r, e)
  | json.Null => (r, None)
  | _ => (r, Some (json.UnmarshalTypeError v "https.Client"
                     (structField FHTTPSClient)))
  end.

(** [null] sets a slice to nil. *)
Definition storeServers (v : json.Value) (r : MenderShellConfigFromFile)
    : MenderShellConfigFromFile * option json.Err :=
  match v with
  | json.Array elems =>
      let '(sl, e) := decodeServers elems (Servers r) in
      (with_Servers sl r, e)
  | json.Null => (with_Servers None r, None)
  | _ => (r, Some (json.UnmarshalTypeError v "[]https.MenderServer"
                     (structField FServers)))
  end.

Definition storeField (f : Field) (v : json.Value)
    (r : MenderShellConfigFromFile)
    : MenderShellConfigFromFile * option json.Err :=
  match f with
  | FClientProtocol => storeString f with_ClientProtocol v r
  | FHTTPSClient => storeClient v r
  | FSkipVerify => storeBool f with_SkipVerify v r
  | FServerCertificate => storeString f with_ServerCertificate v r
  | FServerURL => storeString f with_ServerURL v r
  | FServers => storeServers v r
  | FShellCommand => storeString f with_ShellCommand v r
  | FUser => storeString f with_User v r
  end.

(** One member of the top-level object. The decoder goes on after a type
    error and reports the first one at the end. *)
Definition decodeMember
    (st : MenderShellConfigFromFile * option json.Err)
    (m : string * json.Value)
    : MenderShellConfigFromFile * option json.Err :=
  match lookupField (fst m) with
  | None => st
  | Some f =>
      let '(r, e) := storeField f (snd m) (fst st) in
      (r, match snd st with Some e0 => Some e0 | None => e end)
  end.

(** [json.Unmarshal(conf, &config)], where [config] is an interface value
    that holds a [*MenderShellConfigFromFile]: a top-level [null] is
    stored into the interface variable and leaves the structure alone. *)
Definition Unmarshal (conf : json.Text) (r : MenderShellConfigFromFile)
    : MenderShellConfigFromFile * option json.Err :=
  match conf with
  | json.Malformed msg => (r, Some (json.SyntaxError msg))
  | json.Wellformed json.Null => (r, None)
  | json.Wellformed (json.Object ms) => foldl decodeMember (r, None) ms
  | json.Wellformed v =>
      (r, Some (json.UnmarshalTypeError v
                  "config.MenderShellConfigFromFile" ""))
  end.

Definition readConfigFile (r : MenderShellConfigFromFile)
    (fileName : string)
    : MenderShellConfigFromFile * list log.Entry * option error :=
  let lg :=
    [log.Debug ("Reading Mender configuration from file " +:+ fileName)
               []] in
  match ioutil.ReadFile fs fileName with
  | inr e => (r, lg, Some e)
  | inl conf =>
      match Unmarshal conf r with
      | (r', Some (json.SyntaxError m)) =>
          (r', lg,
           Some (errors_New
                   ("Error parsing mender configuration file: " +:+ m)))
      | (r', Some e) =>
          (r', lg,
           Some (errors_New
                   ("Error parsing config file: " +:+ json.Error e)))
      | (r', None) => (r', lg, None)
      end
  end.

(** The configuration and the counter are passed by pointer: their new
    values are returned next to the error. *)
Definition loadConfigFile (configFile : string)
    (c : MenderShellConfig) (filesLoadedCount : nat)
    : MenderShellConfig * nat * list log.Entry * option error :=
  if os.StatIsNotExist fs configFile
  then (c, filesLoadedCount,
        [log.Debug ("Configuration file does not exist: " +:+ configFile)
                   []],
        None)
  else
    match readConfigFile c configFile with
    | (r, lg, Some e) =>
        (mkConfig r, filesLoadedCount,
         lg ++ [log.Error
                  "Error loading configuration from file: %s (%s)"
                  [log.Str configFile; log.Str (Error e)]],
         Some e)
    | (r, lg, None) =>
        (mkConfig r, filesLoadedCount + 1,
         lg ++ [log.Info ("Loaded configuration file: " +:+ configFile)
                         []],
         None)
    end.

Definition LoadConfig (mainConfigFile fallbackConfigFile : string)
    : Loaded :=
  let filesLoadedCount := 0 in
  let config := NewMenderShellConfig in
  match loadConfigFile fallbackConfigFile config filesLoadedCount with
  | (_, _, lg1, Some loadErr) => mkLoaded None (Some loadErr) lg1
  | (config, filesLoadedCount, lg1, None) =>
      match loadConfigFile mainConfigFile config filesLoadedCount with
      | (_, _, lg2, Some loadErr) =>
          mkLoaded None (Some loadErr) (lg1 ++ lg2)
      | (config, filesLoadedCount, lg2, None) =>
          let lg3 :=
            [log.Debug "Loaded %d configuration file(s)"
                       [log.Int filesLoadedCount]] in
          if (filesLoadedCount =? 0)%nat
          then mkLoaded (Some config) None
                 (lg1 ++ lg2 ++ lg3 ++
                  [log.Info
                     "No configuration files present. Using defaults" []])
          else mkLoaded (Some config) None
                 (lg1 ++ lg2 ++ lg3 ++
                  [log.Debug "Loaded configuration = %#v"
                             [log.Cfg config]])
      end
  end.

End Loading.

(** ** Notions the statements are written with *)

(** One server entry after the loop of [Validate] has passed over it. *)
Definition trimURL (s : https.MenderServer) : https.MenderServer :=
  {| https.ServerURL := strings.TrimSuffix (https.ServerURL s) "/" |}.

(** A slice with every entry trimmed; nil stays nil. *)
Definition trimmed (sl : option (list https.MenderServer))
    : option (list https.MenderServer) :=
  match sl with
  | Some l => Some (trimURL <$> l)
  | None => None
  end.

(** The elements of a slice; nil has none. *)
Definition elems (sl : option (list https.MenderServer))
    : list https.MenderServer :=
  default [] sl.

Definition endsWithSlash (s : https.MenderServer) : bool :=
  strings.HasSuffix (https.ServerURL s) "/".

(** The warnings of the loop for the entries [l], the first of which has
    index [i]. *)
Fixpoint emptyWarnings (i : nat) (l : list https.MenderServer)
    : list log.Entry :=
  match l with
  | [] => []
  | s :: r =>
      (if String.eqb (https.ServerURL s) ""
       then [log.Warn "Server entry %d has no associated server URL."
                      [log.Int (i + 1)]]
       else [])
      ++ emptyWarnings (S i) r
  end.

(** The conflict [Validate] rejects: a server list that is not nil next to
    a legacy URL that is not empty. *)
Definition conflict (c : MenderShellConfig) : bool :=
  match Servers c with
  | Some _ => negb (String.eqb (ServerURL c) "")
  | None => false
  end.

(** The server entries [Validate] starts from: the explicit list, or the
    single entry it makes of the legacy URL when the list is nil. *)
Definition sourceServers (c : MenderShellConfig)
    : list https.MenderServer :=
  match Servers c with
  | Some l => l
  | None => [ {| https.ServerURL := ServerURL c |} ]
  end.

(** The outcome of [Validate] in the conflict case. *)
Definition rejected (c : MenderShellConfig) : Outcome :=
  {| cfg := c;
     logged := [log.Error msgBothGiven []];
     err := Some errBothGiven |}.

(** The value of a field, whatever its type. *)
Inductive FieldValue : Type :=
  | VString (s : string)
  | VBool (b : bool)
  | VClient (cl : https.Client)
  | VServers (sl : option (list https.MenderServer)).


(** The fields of type [string] or [bool]. *)
Definition isScalar (f : Field) : bool :=
  match f with FHTTPSClient | FServers => false | _ => true end.

(** The members of the object a file holds. *)
Definition members (t : json.Text) : list (string * json.Value) :=
  match t with json.Wellformed (json.Object ms) => ms | _ => [] end.

(** Whether some member of the object selects the field [f]. *)
Definition mentions (f : Field) (ms : list (string * json.Value)) : bool :=
  existsb (fun m => bool_decide (lookupField (fst m) = Some f)) ms.

(** The value a member gives to the scalar field [f]: a JSON string for a
    field of type [string], a JSON boolean for one of type [bool]. *)
Definition scalarValue (f : Field) (v : json.Value) : option FieldValue :=
  match f, v with
  | FSkipVerify, json.Bool b => Some (VBool b)
  | FSkipVerify, _ => None
  | (FHTTPSClient | FServers), _ => None
  | _, json.String s => Some (VString s)
  | _, _ => None
  end.


(** The two messages of [readConfigFile] for a failed [json.Unmarshal]. *)
Definition syntaxPrefix : string :=
  "Error parsing mender configuration file: ".
Definition decodePrefix : string := "Error parsing config file: ".

(** The error [readConfigFile] makes of an error of [json.Unmarshal]. *)
Definition parseError (e : json.Err) : error :=
  match e with
  | json.SyntaxError m => errors_New (syntaxPrefix +:+ m)
  | json.DecodeError m => errors_New (decodePrefix +:+ m)
  end.

(** ** Instances of the parameters, for the examples *)

(** A [Validate] of the HTTPS client that changes and logs nothing. *)
Definition quietClientValidate (cl : https.Client)
    : https.Client * list log.Entry :=
  (cl, []).

(** A decoder of the members of an [HttpsClient] object: strings under the
    names [Certificate] and [Key] are stored, anything else is skipped. *)
Definition plainDecodeClient (ms : list (string * json.Value))
    (cl : https.Client) : https.Client * option json.Err :=
  (foldl
     (fun acc m =>
        match snd m with
        | json.String s =>
            if String.eqb (fst m) "Certificate"
            then https.mkClient s (https.Key acc)
            else if String.eqb (fst m) "Key"
                 then https.mkClient (https.Certificate acc) s
                 else acc
        | _ => acc
        end)
     cl ms,
   None).

(** A decoder of the elements of a [Servers] array: every element gives an
    entry, with the string under the name [ServerURL] when it has one. *)
Definition plainDecodeServers (elems : list json.Value)
    (old : option (list https.MenderServer))
    : option (list https.MenderServer) * option json.Err :=
  (Some
     ((fun e =>
         match e with
         | json.Object [(name, json.String u)] =>
             if String.eqb name "ServerURL"
             then {| https.ServerURL := u |}
             else https.zeroMenderServer
         | _ => https.zeroMenderServer
         end) <$> elems),
   None).

(** The configuration with the given legacy URL and server list, and
    nothing else set. *)
Definition configOf (url : string)
    (servers : option (list https.MenderServer)) : MenderShellConfig :=
  {| FromFile :=
       with_Servers servers (with_ServerURL url NewMenderShellConfig) |}.

(** A file system given by the list of its files. *)
Fixpoint filesOf (l : list (string * os.File)) : os.FileSystem :=
  fun name =>
    match l with
    | [] => os.NotExist
    | (n, f) :: rest => if String.eqb n name then f else filesOf rest name
    end.


(** The two paths of the comment on [LoadConfig]. *)
Definition mainPath : string := "/etc/mender/mender-shell.conf".
Definition fallbackPath : string := "/var/lib/mender/mender-shell.conf".

(** A file that holds a JSON object. *)
Definition objectFile (ms : list (string * json.Value)) : os.File :=
  os.Content (json.Wellformed (json.Object ms)).

(** A fallback file that sets a URL and a user, under a main file that
    sets another URL. *)
Definition fallbackDoc : list (string * json.Value) :=
  [("ServerURL", json.String "http://a"); ("User", json.String "root")].
Definition mainDoc : list (string * json.Value) :=
  [("ServerURL", json.String "http://b")].
Definition fsBoth : os.FileSystem :=
  filesOf [(mainPath, objectFile mainDoc);
           (fallbackPath, objectFile fallbackDoc)].


(** No file at all, and a main file cut short. *)
Definition fsNone : os.FileSystem := filesOf [].
Definition fsCut : os.FileSystem :=
  filesOf [(mainPath,
            os.Content (json.Malformed "unexpected end of JSON input"));
           (fallbackPath, objectFile fallbackDoc)].

(** ** Further notions *)

(** The warning of the loop of [Validate] for the entry at position [k],
    counted from 1. *)
Definition entryWarning (k : nat) : log.Entry :=
  log.Warn "Server entry %d has no associated server URL." [log.Int k].

(** 1 for a path that leads to something, 0 for one that does not. *)
Definition present (fs : os.FileSystem) (name : string) : nat :=
  if os.StatIsNotExist fs name then 0 else 1.

(** A fallback file cut short, over a sound main file; a fallback file
    that cannot be read; a file with a number where a string belongs. *)
Definition fsFallbackCut : os.FileSystem :=
  filesOf [(mainPath, objectFile mainDoc);
           (fallbackPath,
            os.Content (json.Malformed "unexpected end of JSON input"))].
Definition fsFallbackUnreadable : os.FileSystem :=
  filesOf [(mainPath, objectFile mainDoc);
           (fallbackPath, os.Unreadable "permission denied")].
Definition wrongKindDoc : list (string * json.Value) :=
  [("User", json.Number "7"); ("ServerURL", json.String "http://a")].
Definition fsWrongKind : os.FileSystem :=
  filesOf [(mainPath, objectFile wrongKindDoc)].

(** A main file with keys that belong to no field, over the fallback
    file. *)
Definition strangerDoc : list (string * json.Value) :=
  [("Server_URL", json.String "http://c"); ("Port", json.Number "443")].
Definition fsStranger : os.FileSystem :=
  filesOf [(mainPath, objectFile strangerDoc);
           (fallbackPath, objectFile fallbackDoc)].
Definition fsFallbackOnly : os.FileSystem :=
  filesOf [(fallbackPath, objectFile fallbackDoc)].
Definition fsMainOnly : os.FileSystem :=
  filesOf [(mainPath, objectFile mainDoc)].

(** ** What the decoders of the two composite fields are held to *)

(** Whether a member name selects the structure field of the given name:
    it is that name, or folds to what that name folds to. *)
Definition nameMatches (field key : string) : bool :=
  String.eqb field key
  || String.eqb (json.foldName field) (json.foldName key).

(** The string an object gives under a field name: that of the last member
    that selects the field and holds a string. *)
Fixpoint memberString (field : string) (ms : list (string * json.Value))
    : option string :=
  match ms with
  | [] => None
  | m :: rest =>
      match memberString field rest with
      | Some s => Some s
      | None =>
          if nameMatches field m.1
          then match m.2 with json.String s => Some s | _ => None end
          else None
      end
  end.

(** The URL an element of a [Servers] array gives, if it gives one. *)
Definition elementURL (v : json.Value) : option string :=
  match v with
  | json.Object ms => memberString "ServerURL" ms
  | _ => None
  end.







(** Decoders that meet the two contracts, for the examples: members are
    matched as the library matches them, and what is no string is passed
    over. *)
Definition foldDecodeClient (ms : list (string * json.Value))
    (cl : https.Client) : https.Client * option json.Err :=
  (foldl
     (fun acc m =>
        match m.2 with
        | json.String s =>
            https.mkClient
              (if nameMatches "Certificate" m.1
               then s else https.Certificate acc)
              (if nameMatches "Key" m.1 then s else https.Key acc)
        | _ => acc
        end)
     cl ms,
   None).

Definition foldDecodeServers (elems : list json.Value)
    (old : option (list https.MenderServer))
    : option (list https.MenderServer) * option json.Err :=
  (Some
     ((fun v => {| https.ServerURL := default "" (elementURL v) |})
        <$> elems),
   None).

(** A fallback file that sets a user, both halves of the client material
    and two servers, under a main file that sets the certificate and one
    server. *)
Definition fallbackFullDoc : list (string * json.Value) :=
  [("User", json.String "root");
   ("HttpsClient",
    json.Object [("Certificate", json.String "/f.crt");
                 ("Key", json.String "/f.key")]);
   ("Servers",
    json.Array [json.Object [("ServerURL", json.String "http://a")];
                json.Object [("ServerURL", json.String "http://b")]])].
Definition mainFullDoc : list (string * json.Value) :=
  [("HttpsClient", json.Object [("Certificate", json.String "/m.crt")]);
   ("Servers",
    json.Array [json.Object [("ServerURL", json.String "http://c")]])].
Definition fsFull : os.FileSystem :=
  filesOf [(mainPath, objectFile mainFullDoc);
           (fallbackPath, objectFile fallbackFullDoc)].
Definition mergedFull : MenderShellConfig :=
  {| FromFile :=
       with_Servers (Some [ {| https.ServerURL := "http://c" |} ])
         (with_HTTPSClient (https.mkClient "/m.crt" "/f.key")
            (with_User "root" NewMenderShellConfig)) |}.

(** * Properties *)

(** ** Suffixes *)

Lemma append_cons (a : ascii) (t u : string) :
  String a t +:+ u = String a (t +:+ u).
Proof. reflexivity. Qed.

Lemma length_append (t u : string) :
  String.length (t +:+ u) = String.length t + String.length u.
Proof. induction t as [|a t IH]; simpl; [reflexivity | now rewrite IH]. Qed.

Lemma substring_all (u : string) :
  String.substring 0 (String.length u) u = u.
Proof. induction u as [|a u IH]; simpl; [reflexivity | now rewrite IH]. Qed.

Lemma substring_append_l (t u : string) :
  String.substring 0 (String.length t) (t +:+ u) = t.
Proof.
  induction t as [|a t IH]; simpl.
  - now destruct u.
  - now rewrite IH.
Qed.

Lemma substring_append_r (t u : string) :
  String.substring (String.length t) (String.length u) (t +:+ u) = u.
Proof.
  induction t as [|a t IH]; simpl; [apply substring_all | exact IH].
Qed.

Lemma substring_split (n : nat) (s : string) :
  n <= String.length s ->
  s = String.substring 0 n s +:+ String.substring n (String.length s - n) s.
Proof.
  revert n. induction s as [|a s IH]; intros n Hn; simpl in *.
  - assert (n = 0) by lia. now subst.
  - destruct n as [|n]; simpl.
    + now rewrite substring_all.
    + rewrite append_cons. f_equal. apply IH. lia.
Qed.

Lemma append_inv_tail (t t' u : string) : t +:+ u = t' +:+ u -> t = t'.
Proof.
  revert t'. induction t as [|a t IH]; intros [|a' t'] H; simpl in *.
  - reflexivity.
  - exfalso. apply (f_equal String.length) in H.
    rewrite !length_append in H. simpl in H. lia.
  - exfalso. apply (f_equal String.length) in H.
    rewrite !length_append in H. simpl in H. lia.
  - rewrite !append_cons in H. injection H as -> H. f_equal. now apply IH.
Qed.

Lemma append_assoc (a b c : string) : (a +:+ b) +:+ c = a +:+ b +:+ c.
Proof.
  induction a as [|x a IH]; [reflexivity | now rewrite !append_cons, IH].
Qed.

Lemma HasSuffix_append (t u : string) : strings.HasSuffix (t +:+ u) u = true.
Proof.
  unfold strings.HasSuffix. rewrite length_append.
  replace (String.length t + String.length u - String.length u)
    with (String.length t) by lia.
  rewrite substring_append_r, String.eqb_refl, andb_true_r.
  apply Nat.leb_le. lia.
Qed.

Lemma HasSuffix_inv (s u : string) :
  strings.HasSuffix s u = true -> exists t, s = t +:+ u.
Proof.
  unfold strings.HasSuffix. intros H.
  apply andb_prop in H as [Hlen Heq].
  apply Nat.leb_le in Hlen. apply String.eqb_eq in Heq.
  exists (String.substring 0 (String.length s - String.length u) s).
  assert (E := substring_split (String.length s - String.length u) s).
  replace (String.length s - (String.length s - String.length u))
    with (String.length u) in E by lia.
  rewrite Heq in E. apply E. lia.
Qed.

Lemma TrimSuffix_append (t u : string) : strings.TrimSuffix (t +:+ u) u = t.
Proof.
  unfold strings.TrimSuffix. rewrite HasSuffix_append, length_append.
  replace (String.length t + String.length u - String.length u)
    with (String.length t) by lia.
  apply substring_append_l.
Qed.

Lemma TrimSuffix_without (s u : string) :
  strings.HasSuffix s u = false -> strings.TrimSuffix s u = s.
Proof. unfold strings.TrimSuffix. now intros ->. Qed.

(** What one trim leaves: a URL still ends with a slash after the trim
    exactly when it ended with two before. *)
Lemma HasSuffix_after_trim (s : string) :
  strings.HasSuffix (strings.TrimSuffix s "/") "/" = strings.HasSuffix s "//".
Proof.
  destruct (strings.HasSuffix s "/") eqn:H1.
  - destruct (HasSuffix_inv _ _ H1) as [t ->].
    rewrite TrimSuffix_append.
    destruct (strings.HasSuffix t "/") eqn:H2.
    + destruct (HasSuffix_inv _ _ H2) as [w ->].
      rewrite append_assoc. symmetry. apply (HasSuffix_append w "//").
    + symmetry. apply not_true_is_false. intros H3.
      destruct (HasSuffix_inv _ _ H3) as [w Hw].
      change (w +:+ "//") with (w +:+ "/" +:+ "/") in Hw.
      rewrite <- append_assoc in Hw. apply append_inv_tail in Hw. subst t.
      rewrite HasSuffix_append in H2. discriminate.
  - rewrite TrimSuffix_without, H1 by exact H1.
    symmetry. apply not_true_is_false. intros H3.
    destruct (HasSuffix_inv _ _ H3) as [w Hw].
    change (w +:+ "//") with (w +:+ "/" +:+ "/") in Hw.
    rewrite <- append_assoc in Hw. subst s.
    rewrite HasSuffix_append in H1. discriminate.
Qed.


(** ** The loop of [Validate] *)

Lemma trimURL_without (s : https.MenderServer) :
  endsWithSlash s = false -> trimURL s = s.
Proof.
  unfold endsWithSlash, trimURL. intros H. destruct s as [u]; simpl in *.
  now rewrite TrimSuffix_without.
Qed.

Lemma url_at_middle (done rest : list https.MenderServer)
    (s : https.MenderServer) :
  url_at (done ++ s :: rest) (length done) = https.ServerURL s.
Proof. unfold url_at. now rewrite list_lookup_middle. Qed.

Lemma set_url_at_middle (done rest : list https.MenderServer)
    (s : https.MenderServer) (u : string) :
  set_url_at (done ++ s :: rest) (length done) u
  = done ++ {| https.ServerURL := u |} :: rest.
Proof.
  unfold set_url_at. rewrite insert_app_r_alt by lia.
  now rewrite Nat.sub_diag.
Qed.

(** One iteration at the index just behind [done]. *)
Lemma trimServer_middle (done rest : list https.MenderServer)
    (s : https.MenderServer) (lg : list log.Entry) :
  trimServer (length done) (done ++ s :: rest, lg)
  = (done ++ trimURL s :: rest, lg ++ emptyWarnings (length done) [trimURL s]).
Proof.
  unfold trimServer. rewrite url_at_middle.
  destruct (strings.HasSuffix (https.ServerURL s) "/") eqn:Hs.
  - rewrite set_url_at_middle, url_at_middle. simpl.
    unfold trimURL. destruct (String.eqb _ ""); now rewrite !app_nil_r.
  - rewrite url_at_middle, (trimURL_without s Hs). simpl.
    destruct (String.eqb _ ""); now rewrite !app_nil_r.
Qed.

(** The loop runs over all entries, whatever it is started with behind it,
    and [length rest] iterations are all it takes. *)
Lemma trimLoop_from (rest done : list https.MenderServer)
    (lg : list log.Entry) :
  trimLoop (length rest) (length done) (done ++ rest, lg)
  = (done ++ (trimURL <$> rest),
     lg ++ emptyWarnings (length done) (trimURL <$> rest)).
Proof.
  revert done lg. induction rest as [|s rest IH]; intros done lg.
  - simpl. now rewrite !app_nil_r.
  - cbn [length trimLoop fst].
    assert (Hlt : (length done <? length (done ++ s :: rest))%nat = true).
    { apply Nat.ltb_lt. rewrite length_app. simpl. lia. }
    rewrite Hlt, trimServer_middle.
    replace (S (length done)) with (length (done ++ [trimURL s]))
      by (rewrite length_app; simpl; lia).
    rewrite (cons_middle (trimURL s) done rest), app_assoc, IH.
    rewrite <- !app_assoc. f_equal. simpl.
    rewrite length_app. simpl.
    replace (length done + 1) with (S (length done)) by lia.
    rewrite <- !app_assoc. reflexivity.
Qed.

Lemma trimLoop_all (l : list https.MenderServer) (lg : list log.Entry) :
  trimLoop (length l) 0 (l, lg)
  = (trimURL <$> l, lg ++ emptyWarnings 0 (trimURL <$> l)).
Proof. exact (trimLoop_from l [] lg). Qed.

(** ** [Validate] *)

Section ValidateFacts.

Variable hv : https.Client -> https.Client * list log.Entry.

(** The second half of [Validate] in closed form. *)
Lemma normalize_eq (c : MenderShellConfig) (lg : list log.Entry) :
  normalize hv c lg =
  let c2 :=
    set_HTTPSClient (hv (HTTPSClient c)).1
      (set_Servers (trimmed (Servers c)) c) in
  {| cfg := c2;
     logged :=
       (lg ++ emptyWarnings 0 (trimURL <$> elems (Servers c)))
       ++ (hv (HTTPSClient c)).2
       ++ [log.Debug "Verified configuration = %#v" [log.Cfg c2]];
     err := None |}.
Proof.
  unfold normalize. rewrite trimLoop_all.
  destruct c as [[cp cl sv sc su ss sh us]]; simpl.
  destruct (hv cl) as [cl' lg2]; simpl.
  destruct ss; reflexivity.
Qed.

Lemma Validate_conflict (c : MenderShellConfig) :
  conflict c = true -> Validate hv c = rejected c.
Proof.
  unfold conflict, Validate, rejected.
  destruct (Servers c); [|discriminate]. now intros ->.
Qed.

Lemma Validate_nil (c : MenderShellConfig) :
  Servers c = None ->
  Validate hv c =
  normalize hv
    (set_Servers (Some [ {| https.ServerURL := ServerURL c |} ]) c)
    (if String.eqb (ServerURL c) ""
     then [log.Warn "No server URL(s) specified in mender configuration."
                    []]
     else []).
Proof. unfold Validate. now intros ->. Qed.

Lemma Validate_list (c : MenderShellConfig)
    (l : list https.MenderServer) :
  Servers c = Some l -> ServerURL c = "" ->
  Validate hv c = normalize hv c [].
Proof. unfold Validate. now intros -> ->. Qed.

Lemma Validate_no_conflict_err (c : MenderShellConfig) :
  conflict c = false -> err (Validate hv c) = None.
Proof.
  unfold conflict, Validate. destruct (Servers c).
  - intros ->. now rewrite normalize_eq.
  - intros _. now rewrite normalize_eq.
Qed.

(** Without a conflict the list [Validate] leaves is the one it started
    from, each entry trimmed once. *)
Lemma Validate_no_conflict_Servers (c : MenderShellConfig) :
  conflict c = false ->
  Servers (cfg (Validate hv c)) = Some (trimURL <$> sourceServers c).
Proof.
  unfold conflict, sourceServers. destruct (Servers c) as [l|] eqn:Hs.
  - intros Hu. apply negb_false_iff, String.eqb_eq in Hu.
    rewrite (Validate_list c l Hs Hu), normalize_eq. simpl.
    now rewrite Hs.
  - intros _. rewrite (Validate_nil c Hs), normalize_eq. reflexivity.
Qed.

Lemma Validate_err_conflict (c : MenderShellConfig) :
  err (Validate hv c) = None -> conflict c = false.
Proof.
  destruct (conflict c) eqn:Hc; [|reflexivity].
  now rewrite (Validate_conflict c Hc).
Qed.

(** What no path through [Validate] assigns to. *)
Lemma Validate_keeps (c : MenderShellConfig) :
  let c' := cfg (Validate hv c) in
  ClientProtocol c' = ClientProtocol c
  /\ SkipVerify c' = SkipVerify c
  /\ ServerCertificate c' = ServerCertificate c
  /\ ServerURL c' = ServerURL c
  /\ ShellCommand c' = ShellCommand c
  /\ User c' = User c
  /\ HTTPSClient c' =
     (if conflict c then HTTPSClient c else (hv (HTTPSClient c)).1).
Proof.
  unfold conflict, Validate. destruct (Servers c) as [l|] eqn:Hs.
  - destruct (String.eqb (ServerURL c) ""); simpl.
    + rewrite normalize_eq. simpl. repeat split; reflexivity.
    + repeat split; reflexivity.
  - rewrite normalize_eq. simpl. repeat split; reflexivity.
Qed.

Lemma trimURL_all_without (l : list https.MenderServer) :
  Forall (fun s => endsWithSlash s = false) l -> trimURL <$> l = l.
Proof.
  induction 1 as [|s l Hs _ IH]; [reflexivity|].
  now rewrite fmap_cons, (trimURL_without s Hs), IH.
Qed.

(** C1: [Validate] returns an error exactly when the server list is not
    nil and the legacy [ServerURL] is not empty at once. It then returns
    before the loop that trims the URLs: the configuration is the one it
    was given and the only log line is the error. In every other case it
    returns no error. *)
Theorem Validate_error_iff_conflict (c : MenderShellConfig) :
  (err (Validate hv c) <> None <-> Servers c <> None /\ ServerURL c <> "")
  /\ (if conflict c
      then Validate hv c = rejected c /\ cfg (Validate hv c) = c
      else err (Validate hv c) = None).
Proof.
  destruct (conflict c) eqn:Hc.
  - rewrite (Validate_conflict c Hc). split; [|split; reflexivity].
    unfold conflict in Hc. destruct (Servers c); [|discriminate].
    apply negb_true_iff, String.eqb_neq in Hc.
    split; [intros _; split; [discriminate | exact Hc] | discriminate].
  - split; [|now apply Validate_no_conflict_err].
    rewrite (Validate_no_conflict_err c Hc).
    split; [intros H; now contradiction H|].
    intros [Hs Hu]. unfold conflict in Hc.
    destruct (Servers c); [|now contradiction Hs].
    apply negb_false_iff, String.eqb_eq in Hc. contradiction.
Qed.

(** C10: [Validate] assigns to [Servers] only, and hands the embedded
    HTTPS client to that client's own [Validate]; [ClientProtocol],
    [SkipVerify], [ServerCertificate], the legacy [ServerURL] (never
    cleared), [ShellCommand] and [User] are after the call what they were
    before it. *)
Theorem Validate_frame (c : MenderShellConfig) :
  ClientProtocol (cfg (Validate hv c)) = ClientProtocol c
  /\ SkipVerify (cfg (Validate hv c)) = SkipVerify c
  /\ ServerCertificate (cfg (Validate hv c)) = ServerCertificate c
  /\ ServerURL (cfg (Validate hv c)) = ServerURL c
  /\ ShellCommand (cfg (Validate hv c)) = ShellCommand c
  /\ User (cfg (Validate hv c)) = User c
  /\ HTTPSClient (cfg (Validate hv c)) =
     (if conflict c then HTTPSClient c else (hv (HTTPSClient c)).1).
Proof. exact (Validate_keeps c). Qed.

(** C5, amended: with an empty [ServerURL] and a server list that is nil,
    [Validate] returns no error and leaves a list of exactly one entry,
    whose URL is empty; the first thing it logs is the warning that no
    server URL is specified. *)
Theorem Validate_nothing_given (c : MenderShellConfig) :
  ServerURL c = "" -> Servers c = None ->
  err (Validate hv c) = None
  /\ Servers (cfg (Validate hv c)) = Some [ {| https.ServerURL := "" |} ]
  /\ exists rest,
       logged (Validate hv c) =
       log.Warn "No server URL(s) specified in mender configuration." []
       :: log.Warn "Server entry %d has no associated server URL."
                   [log.Int 1]
       :: rest.
Proof.
  intros Hu Hs. rewrite (Validate_nil c Hs), normalize_eq, Hu. simpl.
  repeat split. eexists. reflexivity.
Qed.

(** C3, amended: after [Validate] returns without error the server list
    is the list it started from (the explicit one, or the single entry
    made of [ServerURL]) with one trailing slash taken off every URL that
    had one; so a URL of the final list ends with a slash exactly when
    the URL it comes from ended with two. *)
Theorem Validate_trims_once (c : MenderShellConfig) :
  err (Validate hv c) = None ->
  Servers (cfg (Validate hv c)) = Some (trimURL <$> sourceServers c)
  /\ Forall
       (fun s =>
          https.ServerURL (trimURL s)
          = strings.TrimSuffix (https.ServerURL s) "/"
          /\ endsWithSlash (trimURL s)
             = strings.HasSuffix (https.ServerURL s) "//")
       (sourceServers c).
Proof.
  intros He. split.
  - apply Validate_no_conflict_Servers, (Validate_err_conflict _ He).
  - apply Forall_forall. intros s _. split; [reflexivity|].
    apply HasSuffix_after_trim.
Qed.

(** C4, amended: on a configuration that [Validate] has accepted once, a
    second call depends on the legacy [ServerURL]. When it is empty the
    second call returns no error and trims every URL once more, so it
    leaves the list as it is when no URL of it ends with a slash. When it
    is not empty, the list the first call made stands next to it: the
    second call returns the conflict error and changes nothing. *)
Theorem Validate_again (c : MenderShellConfig) :
  err (Validate hv c) = None ->
  if String.eqb (ServerURL c) ""
  then err (Validate hv (cfg (Validate hv c))) = None
       /\ Servers (cfg (Validate hv (cfg (Validate hv c))))
          = trimmed (Servers (cfg (Validate hv c)))
       /\ (Forall (fun s => endsWithSlash s = false)
                  (elems (Servers (cfg (Validate hv c)))) ->
           Servers (cfg (Validate hv (cfg (Validate hv c))))
           = Servers (cfg (Validate hv c)))
  else Validate hv (cfg (Validate hv c)) = rejected (cfg (Validate hv c)).
Proof.
  intros He. apply Validate_err_conflict in He.
  pose proof (Validate_no_conflict_Servers c He) as Hs.
  destruct (Validate_keeps c) as (_ & _ & _ & Hu & _).
  set (c1 := cfg (Validate hv c)) in *.
  destruct (String.eqb (ServerURL c) "") eqn:E.
  - apply String.eqb_eq in E. rewrite E in Hu.
    rewrite (Validate_list c1 _ Hs Hu), normalize_eq. simpl.
    split; [reflexivity|]. split; [reflexivity|].
    rewrite Hs. simpl. intros Hall.
    now rewrite (trimURL_all_without _ Hall).
  - apply Validate_conflict. unfold conflict. now rewrite Hs, Hu, E.
Qed.

End ValidateFacts.

(** *** [Validate] on concrete configurations *)

(** The example of the specification: a legacy URL with one trailing slash
    and no list. *)
Example Validate_one_slash :
  Validate quietClientValidate (configOf "http://a/" None)
  = {| cfg := configOf "http://a/"
                (Some [ {| https.ServerURL := "http://a" |} ]);
       logged :=
         [log.Debug "Verified configuration = %#v"
            [log.Cfg (configOf "http://a/"
                        (Some [ {| https.ServerURL := "http://a" |} ]))]];
       err := None |}.
Proof. reflexivity. Qed.

Example Validate_both_given :
  Validate quietClientValidate
    (configOf "http://a" (Some [ {| https.ServerURL := "http://b/" |} ]))
  = rejected
      (configOf "http://a" (Some [ {| https.ServerURL := "http://b/" |} ])).
Proof. reflexivity. Qed.

Lemma Validate_nothing_given_witness :
  ServerURL (configOf "" None) = ""
  /\ Servers (configOf "" None) = None
  /\ err (Validate quietClientValidate (configOf "" None)) = None
  /\ Servers (cfg (Validate quietClientValidate (configOf "" None)))
     = Some [ {| https.ServerURL := "" |} ]
  /\ exists rest,
       logged (Validate quietClientValidate (configOf "" None)) =
       log.Warn "No server URL(s) specified in mender configuration." []
       :: log.Warn "Server entry %d has no associated server URL."
                   [log.Int 1]
       :: rest.
Proof.
  split; [reflexivity|]. split; [reflexivity|].
  apply (Validate_nothing_given quietClientValidate (configOf "" None));
    reflexivity.
Defined.

(** C5 as stated fails on a list that is empty without being nil (what
    [json.Unmarshal] makes of [[]]): [Validate] succeeds and the list stays
    empty, no entry is made. *)
Lemma Validate_empty_list_counterexample :
  ServerURL (configOf "" (Some [])) = ""
  /\ elems (Servers (configOf "" (Some []))) = []
  /\ err (Validate quietClientValidate (configOf "" (Some []))) = None
  /\ Servers (cfg (Validate quietClientValidate (configOf "" (Some []))))
     = Some []
  /\ ~ (exists s,
          Servers
            (cfg (Validate quietClientValidate (configOf "" (Some []))))
          = Some [s]).
Proof.
  repeat (split; [reflexivity|]). intros [s Hs]. discriminate Hs.
Qed.

Lemma Validate_trims_once_witness :
  err (Validate quietClientValidate (configOf "http://a/" None)) = None
  /\ Servers (cfg (Validate quietClientValidate (configOf "http://a/" None)))
     = Some (trimURL <$> sourceServers (configOf "http://a/" None))
  /\ Forall
       (fun s =>
          https.ServerURL (trimURL s)
          = strings.TrimSuffix (https.ServerURL s) "/"
          /\ endsWithSlash (trimURL s)
             = strings.HasSuffix (https.ServerURL s) "//")
       (sourceServers (configOf "http://a/" None)).
Proof.
  split; [reflexivity|].
  apply (Validate_trims_once quietClientValidate
           (configOf "http://a/" None)).
  reflexivity.
Defined.

(** C3 as stated fails on a URL that ends with two slashes: [Validate]
    succeeds, takes one off, and the URL it leaves ends with the other. *)
Lemma Validate_two_slashes_counterexample :
  err (Validate quietClientValidate (configOf "http://a//" None)) = None
  /\ Servers (cfg (Validate quietClientValidate
                     (configOf "http://a//" None)))
     = Some [ {| https.ServerURL := "http://a/" |} ]
  /\ ~ Forall (fun s => endsWithSlash s = false)
         (elems (Servers (cfg (Validate quietClientValidate
                                 (configOf "http://a//" None))))).
Proof.
  split; [reflexivity|]. split; [reflexivity|].
  intros H. apply Forall_cons in H as [H _]. discriminate H.
Qed.

Lemma Validate_again_witness :
  err (Validate quietClientValidate
         (configOf "" (Some [ {| https.ServerURL := "http://a/" |} ])))
  = None
  /\ err (Validate quietClientValidate
            (cfg (Validate quietClientValidate
                    (configOf ""
                       (Some [ {| https.ServerURL := "http://a/" |} ])))))
     = None
  /\ Servers
       (cfg (Validate quietClientValidate
               (cfg (Validate quietClientValidate
                       (configOf ""
                          (Some [ {| https.ServerURL := "http://a/" |} ]))))))
     = Some [ {| https.ServerURL := "http://a" |} ].
Proof.
  split; [reflexivity|].
  pose proof
    (Validate_again quietClientValidate
       (configOf "" (Some [ {| https.ServerURL := "http://a/" |} ]))
       eq_refl) as H.
  destruct H as (H1 & H2 & _). split; [exact H1 | exact H2].
Defined.

(** C4 as stated fails on a configuration with a legacy URL and no list:
    the first call makes the list and keeps the URL, and the second call
    finds both and returns the conflict error. *)
Lemma Validate_twice_counterexample :
  err (Validate quietClientValidate (configOf "http://a" None)) = None
  /\ err (Validate quietClientValidate
            (cfg (Validate quietClientValidate (configOf "http://a" None))))
     = Some errBothGiven.
Proof. split; reflexivity. Qed.

(** A second call can also trim again: of two trailing slashes each call
    takes one. *)
Example Validate_twice_trims_twice :
  Servers (cfg (Validate quietClientValidate
    (configOf "" (Some [ {| https.ServerURL := "http://a//" |} ]))))
  = Some [ {| https.ServerURL := "http://a/" |} ]
  /\ Servers (cfg (Validate quietClientValidate
       (cfg (Validate quietClientValidate
          (configOf "" (Some [ {| https.ServerURL := "http://a//" |} ]))))))
     = Some [ {| https.ServerURL := "http://a" |} ].
Proof. split; reflexivity. Qed.

(** ** [GetHTTPConfig] *)

(** C9: the HTTP configuration [GetHTTPConfig] returns has a [Client] that
    is not nil exactly when the [Certificate] and the [Key] of the HTTPS
    client of the configuration are both not empty. The fields are read
    after the client's own [Validate], which [maybeHTTPSClient] calls on
    [c.HTTPSClient] first; the [Client] returned is then that client. *)
Theorem GetHTTPConfig_client
    (hv : https.Client -> https.Client * list log.Entry)
    (c : MenderShellConfig) :
  (https.Client_ptr (GetHTTPConfig hv c).1.1 <> None
   <-> https.Certificate (HTTPSClient (GetHTTPConfig hv c).1.2) <> ""
       /\ https.Key (HTTPSClient (GetHTTPConfig hv c).1.2) <> "")
  /\ HTTPSClient (GetHTTPConfig hv c).1.2 = (hv (HTTPSClient c)).1
  /\ https.Client_ptr (GetHTTPConfig hv c).1.1
     = (if negb (String.eqb (https.Certificate (hv (HTTPSClient c)).1) "")
           && negb (String.eqb (https.Key (hv (HTTPSClient c)).1) "")
        then Some (hv (HTTPSClient c)).1
        else None).
Proof.
  unfold GetHTTPConfig, maybeHTTPSClient.
  destruct (hv (HTTPSClient c)) as [cl lg]. simpl.
  destruct (String.eqb_spec (https.Certificate cl) "") as [Hc|Hc];
    destruct (String.eqb_spec (https.Key cl) "") as [Hk|Hk]; simpl;
    (split; [|split; reflexivity]); split;
    try (intros H; now contradiction H);
    try (intros [H1 H2]; contradiction);
    try discriminate.
  intros _. now split.
Qed.

Example GetHTTPConfig_with_both :
  (GetHTTPConfig quietClientValidate
     {| FromFile :=
          with_HTTPSClient (https.mkClient "/c.crt" "/c.key")
            (with_ClientProtocol "https" NewMenderShellConfig) |}).1.1
  = {| https.ServerCert := ""; https.IsHTTPS := true;
       https.Client_ptr := Some (https.mkClient "/c.crt" "/c.key");
       https.NoVerify := false |}.
Proof. reflexivity. Qed.

Example GetHTTPConfig_key_only :
  https.Client_ptr
    (GetHTTPConfig quietClientValidate
       {| FromFile :=
            with_HTTPSClient (https.mkClient "" "/c.key")
              NewMenderShellConfig |}).1.1
  = None.
Proof. reflexivity. Qed.

(** ** [LoadConfig] *)

(** The two messages never coincide. *)
Lemma prefixes_differ (m m' : string) :
  syntaxPrefix +:+ m <> decodePrefix +:+ m'.
Proof. unfold syntaxPrefix, decodePrefix. intros H. discriminate H. Qed.

Section LoadFacts.

Variable dC :
  list (string * json.Value) -> https.Client ->
  https.Client * option json.Err.
Variable dS :
  list json.Value -> option (list https.MenderServer) ->
  option (list https.MenderServer) * option json.Err.
Variable fs : os.FileSystem.

(** *** One file *)

Lemma loadConfigFile_missing (name : string) (c : MenderShellConfig)
    (n : nat) :
  fs name = os.NotExist ->
  loadConfigFile dC dS fs name c n
  = (c, n,
     [log.Debug ("Configuration file does not exist: " +:+ name) []],
     None).
Proof. unfold loadConfigFile, os.StatIsNotExist. now intros ->. Qed.

Lemma loadConfigFile_malformed (name m : string) (c : MenderShellConfig)
    (n : nat) :
  fs name = os.Content (json.Malformed m) ->
  loadConfigFile dC dS fs name c n
  = (c, n,
     [log.Debug ("Reading Mender configuration from file " +:+ name) [];
      log.Error "Error loading configuration from file: %s (%s)"
        [log.Str name; log.Str (syntaxPrefix +:+ m)]],
     Some (errors_New (syntaxPrefix +:+ m))).
Proof.
  unfold loadConfigFile, readConfigFile,
    os.StatIsNotExist, ioutil.ReadFile.
  intros ->. simpl. now destruct c.
Qed.

Lemma loadConfigFile_decoded (name : string) (t : json.Text)
    (c : MenderShellConfig) (n : nat) (r : MenderShellConfigFromFile) :
  fs name = os.Content t -> Unmarshal dC dS t c = (r, None) ->
  loadConfigFile dC dS fs name c n
  = (mkConfig r, n + 1,
     [log.Debug ("Reading Mender configuration from file " +:+ name) [];
      log.Info ("Loaded configuration file: " +:+ name) []],
     None).
Proof.
  unfold loadConfigFile, readConfigFile,
    os.StatIsNotExist, ioutil.ReadFile.
  intros -> ->. reflexivity.
Qed.

Lemma loadConfigFile_decode_error (name m : string) (t : json.Text)
    (c : MenderShellConfig) (n : nat) (r : MenderShellConfigFromFile) :
  fs name = os.Content t ->
  Unmarshal dC dS t c = (r, Some (json.DecodeError m)) ->
  (loadConfigFile dC dS fs name c n).2 = Some (errors_New (decodePrefix +:+ m)).
Proof.
  unfold loadConfigFile, readConfigFile,
    os.StatIsNotExist, ioutil.ReadFile.
  intros -> ->. reflexivity.
Qed.


(** [LoadConfig] gives a configuration exactly when it gives no error. *)
Lemma LoadConfig_config_or_error (main fallback : string) :
  match config (LoadConfig dC dS fs main fallback),
        loadErr (LoadConfig dC dS fs main fallback) with
  | Some _, None | None, Some _ => True
  | _, _ => False
  end.
Proof.
  unfold LoadConfig.
  destruct (loadConfigFile dC dS fs fallback _ _) as [[[c1 n1] lg1] [e1|]];
    [exact I|].
  destruct (loadConfigFile dC dS fs main _ _) as [[[c2 n2] lg2] [e2|]];
    [exact I|].
  now destruct (n2 =? 0)%nat.
Qed.

(** An error of the first file is the error of [LoadConfig], and the
    second file is not looked at. *)
Lemma LoadConfig_fallback_fails (main fallback : string) (e : error) :
  (loadConfigFile dC dS fs fallback NewMenderShellConfig 0).2 = Some e ->
  LoadConfig dC dS fs main fallback
  = mkLoaded None (Some e)
      (loadConfigFile dC dS fs fallback NewMenderShellConfig 0).1.2.
Proof.
  unfold LoadConfig.
  destruct (loadConfigFile dC dS fs fallback _ _) as [[[c1 n1] lg1] [e1|]];
    simpl; [|discriminate].
  now intros [= ->].
Qed.

Lemma loadConfigFile_parse_error (name : string) (t : json.Text)
    (c : MenderShellConfig) (n : nat) (r : MenderShellConfigFromFile)
    (e : json.Err) :
  fs name = os.Content t -> Unmarshal dC dS t c = (r, Some e) ->
  loadConfigFile dC dS fs name c n
  = (mkConfig r, n,
     [log.Debug ("Reading Mender configuration from file " +:+ name) [];
      log.Error "Error loading configuration from file: %s (%s)"
        [log.Str name; log.Str (Error (parseError e))]],
     Some (parseError e)).
Proof.
  unfold loadConfigFile, readConfigFile, os.StatIsNotExist,
    ioutil.ReadFile.
  intros -> ->. now destruct e.
Qed.

Lemma LoadConfig_main_fails (main fallback : string)
    (c1 : MenderShellConfig) (n1 : nat) (lg1 : list log.Entry)
    (e : error) :
  loadConfigFile dC dS fs fallback NewMenderShellConfig 0
  = (c1, n1, lg1, None) ->
  (loadConfigFile dC dS fs main c1 n1).2 = Some e ->
  config (LoadConfig dC dS fs main fallback) = None
  /\ loadErr (LoadConfig dC dS fs main fallback) = Some e.
Proof.
  unfold LoadConfig. intros ->.
  destruct (loadConfigFile dC dS fs main c1 n1) as [[[c2 n2] lg2] [e2|]];
    simpl; [|discriminate].
  intros [= ->]. now split.
Qed.

(** C7: when neither path leads to a file, [LoadConfig] returns the
    configuration [NewMenderShellConfig] makes and no error; each missing
    file is passed over with a debug line, and the number of files it
    reports as loaded is 0. *)
Theorem LoadConfig_no_files (main fallback : string) :
  fs main = os.NotExist -> fs fallback = os.NotExist ->
  LoadConfig dC dS fs main fallback
  = {| config := Some NewMenderShellConfig;
       loadErr := None;
       loadLog :=
         [log.Debug ("Configuration file does not exist: " +:+ fallback)
                    [];
          log.Debug ("Configuration file does not exist: " +:+ main) [];
          log.Debug "Loaded %d configuration file(s)" [log.Int 0];
          log.Info "No configuration files present. Using defaults" []]
    |}.
Proof.
  intros Hm Hf. unfold LoadConfig.
  rewrite (loadConfigFile_missing fallback _ _ Hf).
  rewrite (loadConfigFile_missing main _ _ Hm).
  reflexivity.
Qed.

(** C6: a file that is there and holds malformed JSON makes [LoadConfig]
    return an error and no configuration, whichever of the two files it
    is. The load stops at the first file [json.Unmarshal] fails on (a
    failure of the fallback file ends it before the main file is looked
    at), and the error tells a syntax error from any other decode error
    by its message: the two messages never coincide. *)
Theorem LoadConfig_malformed (main fallback : string) :
  ((exists m, fs fallback = os.Content (json.Malformed m))
   \/ (exists m, fs main = os.Content (json.Malformed m)) ->
   config (LoadConfig dC dS fs main fallback) = None
   /\ loadErr (LoadConfig dC dS fs main fallback) <> None)
  /\ (forall t r e,
        fs fallback = os.Content t ->
        Unmarshal dC dS t NewMenderShellConfig = (r, Some e) ->
        LoadConfig dC dS fs main fallback
        = mkLoaded None (Some (parseError e))
            [log.Debug
               ("Reading Mender configuration from file " +:+ fallback)
               [];
             log.Error "Error loading configuration from file: %s (%s)"
               [log.Str fallback; log.Str (Error (parseError e))]])
  /\ (forall c1 n1 lg1 t r e,
        loadConfigFile dC dS fs fallback NewMenderShellConfig 0
        = (c1, n1, lg1, None) ->
        fs main = os.Content t ->
        Unmarshal dC dS t c1 = (r, Some e) ->
        config (LoadConfig dC dS fs main fallback) = None
        /\ loadErr (LoadConfig dC dS fs main fallback)
           = Some (parseError e))
  /\ (forall m m',
        Error (parseError (json.SyntaxError m))
        <> Error (parseError (json.DecodeError m'))).
Proof.
  split; [|split; [|split]].
  - intros H.
    destruct (loadConfigFile dC dS fs fallback NewMenderShellConfig 0)
      as [[[c1 n1] lg1] [e1|]] eqn:Hf.
    + rewrite (LoadConfig_fallback_fails main fallback e1)
        by now rewrite Hf.
      now split.
    + destruct H as [[m Hm]|[m Hm]].
      * rewrite (loadConfigFile_malformed _ _ _ _ Hm) in Hf.
        discriminate Hf.
      * destruct (LoadConfig_main_fails main fallback c1 n1 lg1
                    (errors_New (syntaxPrefix +:+ m)) Hf) as [-> ->].
        { now rewrite (loadConfigFile_malformed _ _ _ _ Hm). }
        now split.
  - intros t r e Ht Hu.
    rewrite (LoadConfig_fallback_fails main fallback (parseError e));
      now rewrite (loadConfigFile_parse_error _ _ _ _ _ _ Ht Hu).
  - intros c1 n1 lg1 t r e Hf Ht Hu.
    apply (LoadConfig_main_fails main fallback c1 n1 lg1 _ Hf).
    now rewrite (loadConfigFile_parse_error _ _ _ _ _ _ Ht Hu).
  - intros m m'. apply prefixes_differ.
Qed.

(** *** Decoding an object, member by member *)

Lemma foldl_decodeMember_err (ms : list (string * json.Value))
    (st : MenderShellConfigFromFile * option json.Err) (e : json.Err) :
  st.2 = Some e -> (foldl (decodeMember dC dS) st ms).2 = Some e.
Proof.
  revert st. induction ms as [|m ms IH]; intros st He; [exact He|].
  simpl. apply IH. unfold decodeMember.
  destruct (lookupField m.1); [|exact He].
  destruct (storeField dC dS f m.2 st.1). simpl. now rewrite He.
Qed.












End LoadFacts.

(** *** [LoadConfig] on concrete files *)

Example lookupField_folds :
  lookupField "serverurl" = Some FServerURL
  /\ lookupField "HTTPSCLIENT" = Some FHTTPSClient
  /\ lookupField "HTTPSClient" = Some FHTTPSClient
  /\ lookupField "Server_URL" = None.
Proof. repeat split. Qed.

Example LoadConfig_both :
  config (LoadConfig plainDecodeClient plainDecodeServers fsBoth
            mainPath fallbackPath)
  = Some {| FromFile :=
              with_User "root"
                (with_ServerURL "http://b" NewMenderShellConfig) |}.
Proof. reflexivity. Qed.

Example LoadConfig_cut :
  config (LoadConfig plainDecodeClient plainDecodeServers fsCut
            mainPath fallbackPath) = None
  /\ loadErr (LoadConfig plainDecodeClient plainDecodeServers fsCut
                mainPath fallbackPath)
     = Some (errors_New
               "Error parsing mender configuration file: unexpected end of JSON input").
Proof. split; reflexivity. Qed.

Lemma LoadConfig_no_files_witness :
  fsNone mainPath = os.NotExist
  /\ fsNone fallbackPath = os.NotExist
  /\ LoadConfig plainDecodeClient plainDecodeServers fsNone
       mainPath fallbackPath
     = {| config := Some NewMenderShellConfig;
          loadErr := None;
          loadLog :=
            [log.Debug
               ("Configuration file does not exist: " +:+ fallbackPath) [];
             log.Debug
               ("Configuration file does not exist: " +:+ mainPath) [];
             log.Debug "Loaded %d configuration file(s)" [log.Int 0];
             log.Info "No configuration files present. Using defaults" []]
       |}.
Proof.
  split; [reflexivity|]. split; [reflexivity|].
  apply (LoadConfig_no_files plainDecodeClient plainDecodeServers fsNone
           mainPath fallbackPath); reflexivity.
Defined.



Example LoadConfig_full :
  config (LoadConfig foldDecodeClient foldDecodeServers fsFull
            mainPath fallbackPath)
  = Some mergedFull.
Proof. reflexivity. Qed.



(** * Further properties of the loader *)

Section LoadMore.

Variable dC :
  list (string * json.Value) -> https.Client ->
  https.Client * option json.Err.
Variable dS :
  list json.Value -> option (list https.MenderServer) ->
  option (list https.MenderServer) * option json.Err.
Variable fs : os.FileSystem.

Lemma mkConfig_FromFile (c : MenderShellConfig) : mkConfig (FromFile c) = c.
Proof. now destruct c. Qed.

Lemma loadConfigFile_unreadable (name msg : string) (c : MenderShellConfig)
    (n : nat) :
  fs name = os.Unreadable msg ->
  loadConfigFile dC dS fs name c n
  = (c, n,
     [log.Debug ("Reading Mender configuration from file " +:+ name) [];
      log.Error "Error loading configuration from file: %s (%s)"
        [log.Str name; log.Str msg]],
     Some (ReadFileError msg)).
Proof.
  unfold loadConfigFile, readConfigFile, os.StatIsNotExist, ioutil.ReadFile.
  intros ->. simpl. now rewrite mkConfig_FromFile.
Qed.

(** A file that loads adds one to the counter if it is there and nothing
    if it is not. *)
Lemma loadConfigFile_ok_count (name : string) (c c' : MenderShellConfig)
    (n n' : nat) (lg : list log.Entry) :
  loadConfigFile dC dS fs name c n = (c', n', lg, None) ->
  n' = n + present fs name.
Proof.
  unfold loadConfigFile, present.
  destruct (os.StatIsNotExist fs name).
  - intros [= _ <- _]. lia.
  - destruct (readConfigFile dC dS fs c name) as [[r lg0] [e|]];
      [discriminate|].
    now intros [= _ <- _].
Qed.

(** [loadConfigFile] counts exactly the files it has read and decoded: the
    counter goes up by one when the file is there and no error comes back,
    and stays as it is otherwise. A path that leads to nothing is no error
    and leaves the configuration as it is. *)
Theorem loadConfigFile_counter (name : string) (c c' : MenderShellConfig)
    (n n' : nat) (lg : list log.Entry) (e : option error) :
  loadConfigFile dC dS fs name c n = (c', n', lg, e) ->
  n' = match e with Some _ => n | None => n + present fs name end
  /\ (present fs name = 0 -> c' = c /\ e = None).
Proof.
  unfold loadConfigFile, present.
  destruct (os.StatIsNotExist fs name).
  - intros [= <- <- _ <-]. split; [lia|]. now split.
  - destruct (readConfigFile dC dS fs c name) as [[r lg0] [e0|]];
      intros [= _ <- _ <-]; (split; [reflexivity | discriminate]).
Qed.

(** [LoadConfig] returns a configuration exactly when it returns no error:
    never both, and never neither. *)
Theorem LoadConfig_config_iff_no_error (main fallback : string) :
  (config (LoadConfig dC dS fs main fallback) = None
   <-> loadErr (LoadConfig dC dS fs main fallback) <> None)
  /\ (loadErr (LoadConfig dC dS fs main fallback) = None
      <-> config (LoadConfig dC dS fs main fallback) <> None).
Proof.
  pose proof (LoadConfig_config_or_error dC dS fs main fallback) as H.
  destruct (config _) as [c|]; destruct (loadErr _) as [e|];
    try contradiction; split; split; intros; congruence.
Qed.

(** With no main file, the configuration is the fallback file decoded into
    the defaults, and one file is reported as loaded. *)
Theorem LoadConfig_only_fallback (main fallback : string) (t : json.Text)
    (r : MenderShellConfigFromFile) :
  fs main = os.NotExist -> fs fallback = os.Content t ->
  Unmarshal dC dS t NewMenderShellConfig = (r, None) ->
  LoadConfig dC dS fs main fallback
  = {| config := Some (mkConfig r);
       loadErr := None;
       loadLog :=
         [log.Debug
            ("Reading Mender configuration from file " +:+ fallback) [];
          log.Info ("Loaded configuration file: " +:+ fallback) [];
          log.Debug ("Configuration file does not exist: " +:+ main) [];
          log.Debug "Loaded %d configuration file(s)" [log.Int 1];
          log.Debug "Loaded configuration = %#v" [log.Cfg (mkConfig r)]] |}.
Proof.
  intros Hm Hf Hu. unfold LoadConfig.
  rewrite (loadConfigFile_decoded dC dS fs fallback t _ 0 r Hf Hu).
  rewrite (loadConfigFile_missing dC dS fs main _ _ Hm).
  reflexivity.
Qed.

(** With no fallback file, the configuration is the main file decoded into
    the defaults, and one file is reported as loaded. *)
Theorem LoadConfig_only_main (main fallback : string) (t : json.Text)
    (r : MenderShellConfigFromFile) :
  fs fallback = os.NotExist -> fs main = os.Content t ->
  Unmarshal dC dS t NewMenderShellConfig = (r, None) ->
  LoadConfig dC dS fs main fallback
  = {| config := Some (mkConfig r);
       loadErr := None;
       loadLog :=
         [log.Debug ("Configuration file does not exist: " +:+ fallback) [];
          log.Debug ("Reading Mender configuration from file " +:+ main) [];
          log.Info ("Loaded configuration file: " +:+ main) [];
          log.Debug "Loaded %d configuration file(s)" [log.Int 1];
          log.Debug "Loaded configuration = %#v" [log.Cfg (mkConfig r)]] |}.
Proof.
  intros Hf Hm Hu. unfold LoadConfig.
  rewrite (loadConfigFile_missing dC dS fs fallback _ _ Hf).
  rewrite (loadConfigFile_decoded dC dS fs main t _ 0 r Hm Hu).
  reflexivity.
Qed.

(** When [LoadConfig] succeeds, the number of files it reports as loaded
    is the number of the two paths that lead to something, and its last log
    line tells the two ends apart: the notice that defaults are used when
    that number is 0, the loaded configuration otherwise. *)
Theorem LoadConfig_reports_count (main fallback : string) :
  loadErr (LoadConfig dC dS fs main fallback) = None ->
  exists (c : MenderShellConfig) (pre : list log.Entry),
    config (LoadConfig dC dS fs main fallback) = Some c
    /\ loadLog (LoadConfig dC dS fs main fallback)
       = pre ++
         [log.Debug "Loaded %d configuration file(s)"
            [log.Int (present fs fallback + present fs main)];
          if (present fs fallback + present fs main =? 0)%nat
          then log.Info "No configuration files present. Using defaults" []
          else log.Debug "Loaded configuration = %#v" [log.Cfg c]].
Proof.
  unfold LoadConfig.
  destruct (loadConfigFile dC dS fs fallback NewMenderShellConfig 0)
    as [[[c1 n1] lg1] [e1|]] eqn:H1; [discriminate|].
  destruct (loadConfigFile dC dS fs main c1 n1)
    as [[[c2 n2] lg2] [e2|]] eqn:H2; [discriminate|].
  apply loadConfigFile_ok_count in H1, H2. simpl in H1. subst n1 n2.
  intros _. exists c2, (lg1 ++ lg2).
  destruct (present fs fallback + present fs main =? 0)%nat; simpl;
    (split; [reflexivity|]); now rewrite <- !app_assoc.
Qed.

(** A file that is there but cannot be read ends the load with the error
    of [ioutil.ReadFile] itself, not with a parse error, and with no
    configuration: at once for the fallback file, and for the main file
    once the fallback file is through. *)
Theorem LoadConfig_read_error (main fallback msg : string) :
  (fs fallback = os.Unreadable msg ->
   LoadConfig dC dS fs main fallback
   = mkLoaded None (Some (ReadFileError msg))
       [log.Debug ("Reading Mender configuration from file " +:+ fallback)
                  [];
        log.Error "Error loading configuration from file: %s (%s)"
          [log.Str fallback; log.Str msg]])
  /\ (forall c1 n1 lg1,
        loadConfigFile dC dS fs fallback NewMenderShellConfig 0
        = (c1, n1, lg1, None) ->
        fs main = os.Unreadable msg ->
        config (LoadConfig dC dS fs main fallback) = None
        /\ loadErr (LoadConfig dC dS fs main fallback)
           = Some (ReadFileError msg)).
Proof.
  split.
  - intros Hf.
    rewrite (LoadConfig_fallback_fails dC dS fs main fallback
               (ReadFileError msg));
      now rewrite (loadConfigFile_unreadable _ _ _ _ Hf).
  - intros c1 n1 lg1 Hf Hm.
    apply (LoadConfig_main_fails dC dS fs main fallback c1 n1 lg1 _ Hf).
    now rewrite (loadConfigFile_unreadable _ _ _ _ Hm).
Qed.

(** Once the fallback file fails, whatever the failure, the main file is
    not looked at: the result is the same for every main path, and its
    error is the error of the fallback file. *)
Theorem LoadConfig_fallback_error_ignores_main
    (main main' fallback : string) (e : error) :
  (loadConfigFile dC dS fs fallback NewMenderShellConfig 0).2 = Some e ->
  LoadConfig dC dS fs main fallback = LoadConfig dC dS fs main' fallback
  /\ config (LoadConfig dC dS fs main fallback) = None
  /\ loadErr (LoadConfig dC dS fs main fallback) = Some e.
Proof.
  intros H.
  rewrite (LoadConfig_fallback_fails dC dS fs main fallback e H).
  rewrite (LoadConfig_fallback_fails dC dS fs main' fallback e H).
  repeat split.
Qed.

(** Members that select no field are passed over. *)
Lemma unknown_keys_decode (ms : list (string * json.Value)) :
  (forall f, mentions f ms = false) ->
  forall st, foldl (decodeMember dC dS) st ms = st.
Proof.
  induction ms as [|m ms IH]; intros Hno st; [reflexivity|].
  simpl. assert (Hm : decodeMember dC dS st m = st).
  { unfold decodeMember. destruct (lookupField m.1) as [g|] eqn:Hg;
      [|reflexivity].
    pose proof (Hno g) as H. simpl in H.
    rewrite bool_decide_eq_true_2 in H by exact Hg. discriminate H. }
  rewrite Hm. apply IH. intros f. pose proof (Hno f) as H. simpl in H.
  now apply orb_false_iff in H as [_ H].
Qed.

(** A main file that holds an object none of whose keys belongs to a field
    (unknown keys are passed over) loads without error and changes nothing:
    once the fallback stage is through, [LoadConfig] returns no error and
    the configuration that stage left. *)
Theorem LoadConfig_main_names_no_field (main fallback : string)
    (ms : list (string * json.Value)) (c1 : MenderShellConfig) (n1 : nat)
    (lg1 : list log.Entry) :
  fs main = objectFile ms ->
  (forall f, mentions f ms = false) ->
  loadConfigFile dC dS fs fallback NewMenderShellConfig 0
  = (c1, n1, lg1, None) ->
  loadErr (LoadConfig dC dS fs main fallback) = None
  /\ config (LoadConfig dC dS fs main fallback) = Some c1.
Proof.
  intros Hm Hno H1. unfold LoadConfig. rewrite H1.
  assert (U : Unmarshal dC dS (json.Wellformed (json.Object ms)) c1
              = (FromFile c1, None))
    by (simpl; now apply unknown_keys_decode).
  rewrite (loadConfigFile_decoded dC dS fs main _ c1 n1 _ Hm U).
  rewrite mkConfig_FromFile.
  replace (n1 + 1 =? 0)%nat with false
    by (symmetry; apply Nat.eqb_neq; lia).
  now split.
Qed.

Lemma storeField_wrong_kind (f : Field) (v : json.Value)
    (r : MenderShellConfigFromFile) :
  isScalar f = true -> v <> json.Null -> scalarValue f v = None ->
  (storeField dC dS f v r).2 <> None.
Proof.
  destruct f; try discriminate; intros _ Hn Hs; destruct v; simpl in *;
    try discriminate; now contradiction Hn.
Qed.

Lemma foldl_decodeMember_wrong_kind (ms : list (string * json.Value))
    (k : string) (v : json.Value) (f : Field) :
  In (k, v) ms -> lookupField k = Some f ->
  isScalar f = true -> v <> json.Null -> scalarValue f v = None ->
  forall st, (foldl (decodeMember dC dS) st ms).2 <> None.
Proof.
  intros Hin Hk Hsc Hn Hs.
  induction ms as [|m ms IH]; [contradiction|]. intros st. simpl.
  destruct Hin as [->|Hin]; [|now apply IH].
  assert (exists e, (decodeMember dC dS st (k, v)).2 = Some e) as [e He].
  { unfold decodeMember. simpl. rewrite Hk.
    pose proof (storeField_wrong_kind f v st.1 Hsc Hn Hs) as Hw.
    destruct (storeField dC dS f v st.1) as [r' [e'|]]; simpl in *;
      [|now contradiction Hw].
    destruct st.2; eauto. }
  now rewrite (foldl_decodeMember_err dC dS ms _ e He).
Qed.

(** A file that fails whatever it is loaded into makes the whole load
    fail, whichever of the two files it is. *)
Lemma LoadConfig_fails_with (main fallback name : string) :
  name = main \/ name = fallback ->
  (forall c n, (loadConfigFile dC dS fs name c n).2 <> None) ->
  config (LoadConfig dC dS fs main fallback) = None
  /\ loadErr (LoadConfig dC dS fs main fallback) <> None.
Proof.
  intros Hname Hfail.
  destruct (loadConfigFile dC dS fs fallback NewMenderShellConfig 0)
    as [[[c1 n1] lg1] [e1|]] eqn:H1.
  - rewrite (LoadConfig_fallback_fails dC dS fs main fallback e1)
      by now rewrite H1.
    now split.
  - destruct Hname as [->| ->].
    + pose proof (Hfail c1 n1) as Hm.
      destruct (loadConfigFile dC dS fs main c1 n1).2 as [e|] eqn:He;
        [|now contradiction Hm].
      destruct (LoadConfig_main_fails dC dS fs main fallback c1 n1 lg1 e
                  H1 He) as [-> ->].
      now split.
    + exfalso. apply (Hfail NewMenderShellConfig 0). now rewrite H1.
Qed.

(** A value of the wrong JSON kind for a field of type string or boolean
    (not [null], which is passed over) is fatal wherever it stands among
    the members and whichever file holds it: [LoadConfig] returns an error
    and no configuration. *)
Theorem LoadConfig_wrong_kind (main fallback name : string)
    (ms : list (string * json.Value)) (k : string) (v : json.Value)
    (f : Field) :
  name = main \/ name = fallback ->
  fs name = objectFile ms -> In (k, v) ms -> lookupField k = Some f ->
  isScalar f = true -> v <> json.Null -> scalarValue f v = None ->
  config (LoadConfig dC dS fs main fallback) = None
  /\ loadErr (LoadConfig dC dS fs main fallback) <> None.
Proof.
  intros Hname Hfs Hin Hk Hsc Hn Hs.
  apply (LoadConfig_fails_with main fallback name Hname).
  intros c n.
  pose proof (foldl_decodeMember_wrong_kind ms k v f Hin Hk Hsc Hn Hs
                (FromFile c, None)) as Hw.
  destruct (foldl (decodeMember dC dS) (FromFile c, None) ms)
    as [r [e|]] eqn:Hfold; [|now contradiction Hw].
  rewrite (loadConfigFile_parse_error dC dS fs name
             (json.Wellformed (json.Object ms)) c n r e Hfs Hfold).
  discriminate.
Qed.

End LoadMore.

(** * Further properties of the validation *)

(** Trimming leaves a URL as it is, or takes one final slash off it. *)
Lemma TrimSuffix_slash_cases (s : string) :
  (strings.HasSuffix s "/" = false /\ strings.TrimSuffix s "/" = s)
  \/ (strings.HasSuffix s "/" = true
      /\ s = strings.TrimSuffix s "/" +:+ "/").
Proof.
  destruct (strings.HasSuffix s "/") eqn:H.
  - right. split; [reflexivity|].
    destruct (HasSuffix_inv _ _ H) as [t ->]. now rewrite TrimSuffix_append.
  - left. split; [reflexivity|]. now apply TrimSuffix_without.
Qed.

(** Nothing is left of a URL exactly when it was empty or a lone slash. *)
Lemma TrimSuffix_slash_empty (s : string) :
  strings.TrimSuffix s "/" = "" <-> s = "" \/ s = "/".
Proof.
  destruct (TrimSuffix_slash_cases s) as [[Hn ->]|[Hy Hs]].
  - split; [now left|]. intros [H|H]; [exact H|].
    subst s. discriminate Hn.
  - split.
    + intros E. rewrite E in Hs. now right.
    + intros [H|H].
      * subst s. discriminate Hy.
      * rewrite H in Hs at 1. change "/" with ("" +:+ "/") in Hs at 1.
        apply append_inv_tail in Hs. now symmetry.
Qed.

(** The warnings of the loop name the positions of the entries without a
    URL, counted from one past the start index. *)
Lemma emptyWarnings_In (l : list https.MenderServer) :
  forall j k,
    In (entryWarning k) (emptyWarnings j l)
    <-> exists i s,
          k = j + i + 1 /\ l !! i = Some s /\ https.ServerURL s = "".
Proof.
  induction l as [|s0 l IH]; intros j k; simpl.
  - split; [contradiction|]. now intros (i & s & _ & H & _).
  - rewrite in_app_iff, IH. split.
    + intros [H|(i & s & -> & Hl & Hs)].
      * destruct (String.eqb_spec (https.ServerURL s0) "") as [E|E];
          [|contradiction].
        destruct H as [H|[]]. injection H as <-.
        exists 0, s0. repeat split; [lia | exact E].
      * exists (S i), s. repeat split; [lia | exact Hl | exact Hs].
    + intros (i & s & -> & Hl & Hs). destruct i as [|i]; simpl in Hl.
      * injection Hl as ->. left. rewrite Hs. simpl. left.
        unfold entryWarning. do 3 f_equal. lia.
      * right. exists i, s. repeat split; [lia | exact Hl | exact Hs].
Qed.

Section ValidateMore.

Variable hv : https.Client -> https.Client * list log.Entry.

(** The log of a call that finds no conflict. *)
Lemma Validate_no_conflict_logged (c : MenderShellConfig) :
  conflict c = false ->
  logged (Validate hv c)
  = (match Servers c with
     | None =>
         if String.eqb (ServerURL c) ""
         then [log.Warn
                 "No server URL(s) specified in mender configuration." []]
         else []
     | Some _ => []
     end
     ++ emptyWarnings 0 (trimURL <$> sourceServers c))
    ++ (hv (HTTPSClient c)).2
    ++ [log.Debug "Verified configuration = %#v"
          [log.Cfg (cfg (Validate hv c))]].
Proof.
  unfold conflict, sourceServers. destruct (Servers c) as [l|] eqn:Hs.
  - intros Hu. apply negb_false_iff, String.eqb_eq in Hu.
    rewrite (Validate_list hv c l Hs Hu), normalize_eq. simpl.
    now rewrite Hs.
  - intros _. rewrite (Validate_nil hv c Hs), normalize_eq. reflexivity.
Qed.

(** After a call without error the server list is never nil: a nil list
    has become a list of exactly one entry, and an explicit list has kept
    its length, be it zero. *)
Theorem Validate_list_shape (c : MenderShellConfig) :
  err (Validate hv c) = None ->
  exists l,
    Servers (cfg (Validate hv c)) = Some l
    /\ length l = match Servers c with
                  | None => 1
                  | Some l0 => length l0
                  end.
Proof.
  intros He. apply Validate_err_conflict in He.
  rewrite (Validate_no_conflict_Servers hv c He).
  eexists. split; [reflexivity|].
  rewrite length_fmap. unfold sourceServers. now destruct (Servers c).
Qed.

(** A call without error changes no URL other than by taking one final
    slash off it: entry by entry, the URL it started from is the final URL,
    or the final URL followed by a slash. *)
Theorem Validate_only_removes_a_slash (c : MenderShellConfig) :
  err (Validate hv c) = None ->
  Forall2
    (fun before after =>
       https.ServerURL before = https.ServerURL after
       \/ https.ServerURL before = https.ServerURL after +:+ "/")
    (sourceServers c)
    (elems (Servers (cfg (Validate hv c)))).
Proof.
  intros He. apply Validate_err_conflict in He.
  rewrite (Validate_no_conflict_Servers hv c He). simpl.
  apply Forall2_fmap_r, Forall_Forall2_diag, Forall_forall.
  intros s _. simpl.
  destruct (TrimSuffix_slash_cases (https.ServerURL s)) as [[_ H]|[_ H]].
  - left. now rewrite H.
  - right. exact H.
Qed.

(** When the validation of the HTTPS client logs nothing, [Validate] logs
    the warning for position [k] (counted from 1) exactly when it finds no
    conflict and the URL of entry [k] of the list it starts from is empty
    or a lone slash. *)
Theorem Validate_warns_empty_entries (c : MenderShellConfig) (k : nat) :
  (forall cl, (hv cl).2 = []) ->
  In (entryWarning k) (logged (Validate hv c))
  <-> conflict c = false
      /\ exists i s,
           k = i + 1 /\ sourceServers c !! i = Some s
           /\ (https.ServerURL s = "" \/ https.ServerURL s = "/").
Proof.
  intros Hq. destruct (conflict c) eqn:Hc.
  - rewrite (Validate_conflict hv c Hc). simpl. split.
    + intros [H|[]]. discriminate H.
    + intros [H _]. discriminate H.
  - rewrite (Validate_no_conflict_logged c Hc), Hq. simpl.
    rewrite !in_app_iff, emptyWarnings_In. split.
    + intros [[H|H]|H].
      * exfalso. destruct (Servers c); [contradiction|].
        destruct (String.eqb (ServerURL c) ""); [|contradiction].
        destruct H as [H|[]]. discriminate H.
      * destruct H as (i & s' & -> & Hl & Hs). split; [reflexivity|].
        rewrite list_lookup_fmap in Hl.
        destruct (sourceServers c !! i) as [s|] eqn:Hi; [|discriminate].
        injection Hl as <-. exists i, s.
        repeat split; [exact Hi|]. now apply TrimSuffix_slash_empty.
      * exfalso. destruct H as [H|[]]. discriminate H.
    + intros (_ & i & s & -> & Hl & Hs). left. right.
      exists i, (trimURL s). repeat split.
      * rewrite list_lookup_fmap, Hl. reflexivity.
      * now apply TrimSuffix_slash_empty.
Qed.

(** [Validate] does not touch what [GetHTTPConfig] reads besides the
    HTTPS client: after a call to [Validate], whatever it returned, the
    HTTP configuration has the server certificate and the verification
    flag the configuration had before, and it is HTTPS exactly when the
    protocol was [https]. *)
Theorem GetHTTPConfig_after_Validate (c : MenderShellConfig) :
  https.ServerCert (GetHTTPConfig hv (cfg (Validate hv c))).1.1
  = ServerCertificate c
  /\ https.NoVerify (GetHTTPConfig hv (cfg (Validate hv c))).1.1
     = SkipVerify c
  /\ (https.IsHTTPS (GetHTTPConfig hv (cfg (Validate hv c))).1.1 = true
      <-> ClientProtocol c = httpsSchema).
Proof.
  destruct (Validate_keeps hv c) as (Hp & Hv & Hc & _).
  unfold GetHTTPConfig, maybeHTTPSClient.
  destruct (hv (HTTPSClient (cfg (Validate hv c)))) as [cl lg]. simpl.
  destruct (_ && _); simpl; rewrite Hp, Hv, Hc;
    (split; [reflexivity|]; split; [reflexivity|]; apply String.eqb_eq).
Qed.

(** With no configuration file at all the pipeline still goes through:
    [LoadConfig] gives the defaults, and [Validate] accepts them and leaves
    a single server entry with an empty URL. *)
Theorem LoadConfig_then_Validate_defaults
    (dC : list (string * json.Value) -> https.Client ->
          https.Client * option json.Err)
    (dS : list json.Value -> option (list https.MenderServer) ->
          option (list https.MenderServer) * option json.Err)
    (fs : os.FileSystem) (main fallback : string) :
  fs main = os.NotExist -> fs fallback = os.NotExist ->
  exists c,
    config (LoadConfig dC dS fs main fallback) = Some c
    /\ err (Validate hv c) = None
    /\ Servers (cfg (Validate hv c))
       = Some [ {| https.ServerURL := "" |} ].
Proof.
  intros Hm Hf. exists NewMenderShellConfig. unfold LoadConfig.
  rewrite (loadConfigFile_missing dC dS fs fallback _ _ Hf).
  rewrite (loadConfigFile_missing dC dS fs main _ _ Hm). simpl.
  split; [reflexivity|].
  rewrite (Validate_nil hv NewMenderShellConfig eq_refl), normalize_eq.
  simpl. now split.
Qed.

End ValidateMore.

(** *** The further properties on concrete inputs *)

Lemma LoadConfig_only_fallback_witness :
  fsFallbackOnly mainPath = os.NotExist
  /\ fsFallbackOnly fallbackPath = objectFile fallbackDoc
  /\ Unmarshal plainDecodeClient plainDecodeServers
       (json.Wellformed (json.Object fallbackDoc)) NewMenderShellConfig
     = (with_User "root" (with_ServerURL "http://a" NewMenderShellConfig),
        None)
  /\ LoadConfig plainDecodeClient plainDecodeServers fsFallbackOnly
       mainPath fallbackPath
     = {| config :=
            Some (mkConfig
                    (with_User "root"
                       (with_ServerURL "http://a" NewMenderShellConfig)));
          loadErr := None;
          loadLog :=
            [log.Debug
               ("Reading Mender configuration from file " +:+ fallbackPath)
               [];
             log.Info ("Loaded configuration file: " +:+ fallbackPath) [];
             log.Debug
               ("Configuration file does not exist: " +:+ mainPath) [];
             log.Debug "Loaded %d configuration file(s)" [log.Int 1];
             log.Debug "Loaded configuration = %#v"
               [log.Cfg
                  (mkConfig
                     (with_User "root"
                        (with_ServerURL "http://a"
                           NewMenderShellConfig)))]] |}.
Proof.
  split; [reflexivity|]. split; [reflexivity|]. split; [reflexivity|].
  apply (LoadConfig_only_fallback plainDecodeClient plainDecodeServers
           fsFallbackOnly mainPath fallbackPath
           (json.Wellformed (json.Object fallbackDoc)));
    reflexivity.
Defined.

Lemma LoadConfig_only_main_witness :
  fsMainOnly fallbackPath = os.NotExist
  /\ fsMainOnly mainPath = objectFile mainDoc
  /\ Unmarshal plainDecodeClient plainDecodeServers
       (json.Wellformed (json.Object mainDoc)) NewMenderShellConfig
     = (with_ServerURL "http://b" NewMenderShellConfig, None)
  /\ LoadConfig plainDecodeClient plainDecodeServers fsMainOnly
       mainPath fallbackPath
     = {| config :=
            Some (mkConfig (with_ServerURL "http://b" NewMenderShellConfig));
          loadErr := None;
          loadLog :=
            [log.Debug
               ("Configuration file does not exist: " +:+ fallbackPath) [];
             log.Debug
               ("Reading Mender configuration from file " +:+ mainPath) [];
             log.Info ("Loaded configuration file: " +:+ mainPath) [];
             log.Debug "Loaded %d configuration file(s)" [log.Int 1];
             log.Debug "Loaded configuration = %#v"
               [log.Cfg
                  (mkConfig
                     (with_ServerURL "http://b" NewMenderShellConfig))]] |}.
Proof.
  split; [reflexivity|]. split; [reflexivity|]. split; [reflexivity|].
  apply (LoadConfig_only_main plainDecodeClient plainDecodeServers
           fsMainOnly mainPath fallbackPath
           (json.Wellformed (json.Object mainDoc)));
    reflexivity.
Defined.

Lemma LoadConfig_reports_count_witness :
  loadErr (LoadConfig plainDecodeClient plainDecodeServers fsBoth
             mainPath fallbackPath) = None
  /\ exists (c : MenderShellConfig) (pre : list log.Entry),
       config (LoadConfig plainDecodeClient plainDecodeServers fsBoth
                 mainPath fallbackPath) = Some c
       /\ loadLog (LoadConfig plainDecodeClient plainDecodeServers fsBoth
                     mainPath fallbackPath)
          = pre ++
            [log.Debug "Loaded %d configuration file(s)" [log.Int 2];
             log.Debug "Loaded configuration = %#v" [log.Cfg c]].
Proof.
  split; [reflexivity|].
  apply (LoadConfig_reports_count plainDecodeClient plainDecodeServers
           fsBoth mainPath fallbackPath).
  reflexivity.
Defined.

Lemma LoadConfig_fallback_error_ignores_main_witness :
  (loadConfigFile plainDecodeClient plainDecodeServers fsFallbackCut
     fallbackPath NewMenderShellConfig 0).2
  = Some (errors_New (syntaxPrefix +:+ "unexpected end of JSON input"))
  /\ LoadConfig plainDecodeClient plainDecodeServers fsFallbackCut
       mainPath fallbackPath
     = LoadConfig plainDecodeClient plainDecodeServers fsFallbackCut
         "/nowhere" fallbackPath
  /\ config (LoadConfig plainDecodeClient plainDecodeServers fsFallbackCut
               mainPath fallbackPath) = None
  /\ loadErr (LoadConfig plainDecodeClient plainDecodeServers fsFallbackCut
                mainPath fallbackPath)
     = Some (errors_New (syntaxPrefix +:+ "unexpected end of JSON input")).
Proof.
  split; [reflexivity|].
  apply (LoadConfig_fallback_error_ignores_main plainDecodeClient
           plainDecodeServers fsFallbackCut mainPath "/nowhere"
           fallbackPath).
  reflexivity.
Defined.

Lemma loadConfigFile_counter_witness :
  loadConfigFile plainDecodeClient plainDecodeServers fsBoth mainPath
    NewMenderShellConfig 0
  = (mkConfig (with_ServerURL "http://b" NewMenderShellConfig), 1,
     [log.Debug ("Reading Mender configuration from file " +:+ mainPath) [];
      log.Info ("Loaded configuration file: " +:+ mainPath) []],
     None)
  /\ 1 = 0 + present fsBoth mainPath
  /\ (present fsBoth mainPath = 0 ->
      mkConfig (with_ServerURL "http://b" NewMenderShellConfig)
      = NewMenderShellConfig
      /\ @None error = None).
Proof.
  split; [reflexivity|].
  apply (loadConfigFile_counter plainDecodeClient plainDecodeServers fsBoth
           mainPath NewMenderShellConfig
           (mkConfig (with_ServerURL "http://b" NewMenderShellConfig))
           0 1
           [log.Debug
              ("Reading Mender configuration from file " +:+ mainPath) [];
            log.Info ("Loaded configuration file: " +:+ mainPath) []]
           None).
  reflexivity.
Defined.

Lemma LoadConfig_main_names_no_field_witness :
  fsStranger mainPath = objectFile strangerDoc
  /\ (forall f, mentions f strangerDoc = false)
  /\ loadConfigFile plainDecodeClient plainDecodeServers fsStranger
       fallbackPath NewMenderShellConfig 0
     = (mkConfig
          (with_User "root"
             (with_ServerURL "http://a" NewMenderShellConfig)),
        1,
        [log.Debug
           ("Reading Mender configuration from file " +:+ fallbackPath) [];
         log.Info ("Loaded configuration file: " +:+ fallbackPath) []],
        None)
  /\ loadErr (LoadConfig plainDecodeClient plainDecodeServers fsStranger
                mainPath fallbackPath) = None
  /\ config (LoadConfig plainDecodeClient plainDecodeServers fsStranger
               mainPath fallbackPath)
     = Some (mkConfig
               (with_User "root"
                  (with_ServerURL "http://a" NewMenderShellConfig))).
Proof.
  split; [reflexivity|].
  split; [intros f; destruct f; reflexivity|].
  split; [reflexivity|].
  apply (LoadConfig_main_names_no_field plainDecodeClient
           plainDecodeServers fsStranger mainPath fallbackPath
           strangerDoc
           (mkConfig
              (with_User "root"
                 (with_ServerURL "http://a" NewMenderShellConfig)))
           1
           [log.Debug
              ("Reading Mender configuration from file " +:+ fallbackPath)
              [];
            log.Info ("Loaded configuration file: " +:+ fallbackPath) []]);
    [reflexivity | intros f; destruct f; reflexivity | reflexivity].
Defined.

Lemma LoadConfig_wrong_kind_witness :
  (mainPath = mainPath \/ mainPath = fallbackPath)
  /\ fsWrongKind mainPath = objectFile wrongKindDoc
  /\ In ("User", json.Number "7") wrongKindDoc
  /\ lookupField "User" = Some FUser
  /\ isScalar FUser = true
  /\ json.Number "7" <> json.Null
  /\ scalarValue FUser (json.Number "7") = None
  /\ config (LoadConfig plainDecodeClient plainDecodeServers fsWrongKind
               mainPath fallbackPath) = None
  /\ loadErr (LoadConfig plainDecodeClient plainDecodeServers fsWrongKind
                mainPath fallbackPath) <> None.
Proof.
  split; [now left|]. split; [reflexivity|]. split; [now left|].
  split; [reflexivity|]. split; [reflexivity|]. split; [discriminate|].
  split; [reflexivity|].
  apply (LoadConfig_wrong_kind plainDecodeClient plainDecodeServers
           fsWrongKind mainPath fallbackPath mainPath wrongKindDoc
           "User" (json.Number "7") FUser);
    [now left | reflexivity | now left | reflexivity | reflexivity
    | discriminate | reflexivity].
Defined.

Lemma Validate_list_shape_witness :
  err (Validate quietClientValidate (configOf "http://a/" None)) = None
  /\ exists l,
       Servers (cfg (Validate quietClientValidate
                       (configOf "http://a/" None))) = Some l
       /\ length l = 1.
Proof.
  split; [reflexivity|].
  apply (Validate_list_shape quietClientValidate
           (configOf "http://a/" None)).
  reflexivity.
Defined.

Lemma Validate_only_removes_a_slash_witness :
  err (Validate quietClientValidate
         (configOf ""
            (Some [ {| https.ServerURL := "http://a/" |};
                    {| https.ServerURL := "http://b" |} ]))) = None
  /\ Forall2
       (fun before after =>
          https.ServerURL before = https.ServerURL after
          \/ https.ServerURL before = https.ServerURL after +:+ "/")
       [ {| https.ServerURL := "http://a/" |};
         {| https.ServerURL := "http://b" |} ]
       (elems
          (Servers
             (cfg (Validate quietClientValidate
                     (configOf ""
                        (Some [ {| https.ServerURL := "http://a/" |};
                                {| https.ServerURL := "http://b" |} ])))))).
Proof.
  split; [reflexivity|].
  apply (Validate_only_removes_a_slash quietClientValidate
           (configOf ""
              (Some [ {| https.ServerURL := "http://a/" |};
                      {| https.ServerURL := "http://b" |} ]))).
  reflexivity.
Defined.

Lemma Validate_warns_empty_entries_witness :
  (forall cl, (quietClientValidate cl).2 = [])
  /\ (In (entryWarning 2)
        (logged
           (Validate quietClientValidate
              (configOf ""
                 (Some [ {| https.ServerURL := "http://a" |};
                         {| https.ServerURL := "/" |} ]))))
      <-> conflict
            (configOf ""
               (Some [ {| https.ServerURL := "http://a" |};
                       {| https.ServerURL := "/" |} ])) = false
          /\ exists i s,
               2 = i + 1
               /\ sourceServers
                    (configOf ""
                       (Some [ {| https.ServerURL := "http://a" |};
                               {| https.ServerURL := "/" |} ])) !! i
                  = Some s
               /\ (https.ServerURL s = "" \/ https.ServerURL s = "/")).
Proof.
  split; [intros cl; reflexivity|].
  apply (Validate_warns_empty_entries quietClientValidate
           (configOf ""
              (Some [ {| https.ServerURL := "http://a" |};
                      {| https.ServerURL := "/" |} ]))
           2).
  intros cl. reflexivity.
Defined.

(** The warning of the witness above is there. *)
Example Validate_warns_second_entry :
  In (entryWarning 2)
    (logged
       (Validate quietClientValidate
          (configOf ""
             (Some [ {| https.ServerURL := "http://a" |};
                     {| https.ServerURL := "/" |} ])))).
Proof. simpl. now left. Qed.

Lemma LoadConfig_then_Validate_defaults_witness :
  fsNone mainPath = os.NotExist
  /\ fsNone fallbackPath = os.NotExist
  /\ exists c,
       config (LoadConfig plainDecodeClient plainDecodeServers fsNone
                 mainPath fallbackPath) = Some c
       /\ err (Validate quietClientValidate c) = None
       /\ Servers (cfg (Validate quietClientValidate c))
          = Some [ {| https.ServerURL := "" |} ].
Proof.
  split; [reflexivity|]. split; [reflexivity|].
  apply (LoadConfig_then_Validate_defaults quietClientValidate
           plainDecodeClient plainDecodeServers fsNone mainPath
           fallbackPath);
    reflexivity.
Defined.

Example LoadConfig_unreadable_fallback :
  LoadConfig plainDecodeClient plainDecodeServers fsFallbackUnreadable
    mainPath fallbackPath
  = mkLoaded None (Some (ReadFileError "permission denied"))
      [log.Debug
         ("Reading Mender configuration from file " +:+ fallbackPath) [];
       log.Error "Error loading configuration from file: %s (%s)"
         [log.Str fallbackPath; log.Str "permission denied"]].
Proof. reflexivity. Qed.
